(** * Autoclipper: the kill-list text pipeline of [process_tarkov_raid.py]

    A shallow embedding of the four pure functions of the script
    ([parse_timestamp], [fuzzy_match], [clean_ocr_line], [parse_kill_list])
    together with the Python built-ins they call, followed by the
    properties the specification states about them.

    Conventions.
    - A Python [str] is a sequence of Unicode code points: [str := list N].
    - Python [int] is unbounded: [Z].
    - A call that may raise returns in the monad [Py], which threads the
      lines printed on standard output and either a value or the exception.
    - Definitions come first (Part I); lemmas and theorems follow (Part II),
      then further properties of the script (Part III). *)

From Stdlib Require Import Ascii String.
From Stdlib Require Import List NArith ZArith QArith Bool Lia.
Import ListNotations.

Local Close Scope Q_scope.
Local Open Scope N_scope.

(* ===================================================================== *)
(** * Part I. Definitions                                                 *)
(* ===================================================================== *)

(** ** Strings *)

Definition char := N.
Definition str := list char.

(** An ASCII literal of the source, as a [str]. *)
Definition lit (s : string) : str := map N_of_ascii (list_ascii_of_string s).

Definition between (lo hi c : N) : bool := (lo <=? c) && (c <=? hi).

(** The built-ins of Python's [str] and [int] that the script calls. *)
Module Py.

(** [str.isspace] on one code point (the interpreter's whitespace table). *)
Definition isspace (c : char) : bool :=
  between 0x09 0x0D c || between 0x1C 0x20 c || (c =? 0x85) || (c =? 0xA0)
  || (c =? 0x1680) || between 0x2000 0x200A c || (c =? 0x2028)
  || (c =? 0x2029) || (c =? 0x202F) || (c =? 0x205F) || (c =? 0x3000).

(** [p] is a prefix of [s]. *)
Fixpoint starts_with (p s : str) : bool :=
  match p, s with
  | [], _ => true
  | _ :: _, [] => false
  | x :: p', y :: s' => (x =? y) && starts_with p' s'
  end.

(** Left-to-right scan of [s.replace(old, new)] for a non-empty [old]:
    [skip] counts the characters of the occurrence just replaced that are
    still to be passed over, so occurrences never overlap. *)
Fixpoint replace_from (old new : str) (skip : nat) (s : str) : str :=
  match s with
  | [] => []
  | c :: s' =>
      match skip with
      | S k => replace_from old new k s'
      | O =>
          if starts_with old s
          then new ++ replace_from old new (length old - 1) s'
          else c :: replace_from old new 0 s'
      end
  end.

(** [s.replace(old, new)]. *)
Definition replace (old new s : str) : str :=
  match old with
  | [] => new ++ flat_map (fun c => c :: new) s
  | _ :: _ => replace_from old new 0 s
  end.

(** [s.lstrip()], [s.rstrip()], [s.strip()]. *)
Fixpoint lstrip (s : str) : str :=
  match s with
  | [] => []
  | c :: s' => if isspace c then lstrip s' else s
  end.

Fixpoint rstrip (s : str) : str :=
  match s with
  | [] => []
  | c :: s' =>
      match rstrip s' with
      | [] => if isspace c then [] else [c]
      | r => c :: r
      end
  end.

Definition strip (s : str) : str := rstrip (lstrip s).

(** [c in s] for a one-character [c]. *)
Definition contains (c : char) (s : str) : bool := existsb (N.eqb c) s.

(** [s.split(sep)] for a one-character separator: never empty, one more
    part than there are separators.  [cur] is the part being read,
    reversed. *)
Fixpoint split_on_from (sep : char) (cur : str) (s : str) : list str :=
  match s with
  | [] => [rev cur]
  | c :: s' =>
      if c =? sep then rev cur :: split_on_from sep [] s'
      else split_on_from sep (c :: cur) s'
  end.

Definition split_on (sep : char) (s : str) : list str :=
  split_on_from sep [] s.

(** [s.split()]: the maximal runs of non-whitespace characters. *)
Fixpoint split_from (cur : str) (s : str) : list str :=
  match s with
  | [] => match cur with [] => [] | _ => [rev cur] end
  | c :: s' =>
      if isspace c
      then match cur with
           | [] => split_from [] s'
           | _ => rev cur :: split_from [] s'
           end
      else split_from (c :: cur) s'
  end.

Definition split (s : str) : list str := split_from [] s.

(** The line boundaries of [str.splitlines]. *)
Definition is_linebreak (c : char) : bool :=
  between 0x0A 0x0D c || between 0x1C 0x1E c || (c =? 0x85)
  || (c =? 0x2028) || (c =? 0x2029).

(** [s.splitlines()]: a carriage return followed by a line feed is one
    boundary, and no empty line is reported after the last boundary. *)
Fixpoint splitlines_from (cur : str) (s : str) : list str :=
  match s with
  | [] => match cur with [] => [] | _ => [rev cur] end
  | c :: s' =>
      if is_linebreak c then
        rev cur ::
          match s' with
          | d :: s'' =>
              if (c =? 0x0D) && (d =? 0x0A) then splitlines_from [] s''
              else splitlines_from [] s'
          | [] => splitlines_from [] s'
          end
      else splitlines_from (c :: cur) s'
  end.

Definition splitlines (s : str) : list str := splitlines_from [] s.

(** [sep.join(parts)]. *)
Fixpoint join (sep : str) (parts : list str) : str :=
  match parts with
  | [] => []
  | [p] => p
  | p :: ps => p ++ sep ++ join sep ps
  end.

(** [parts[n:]]. *)
Definition slice_from {A} (n : nat) (l : list A) : list A := skipn n l.

(** *** [int(s)] on a string

    The numeral grammar of [int] in base ten: optional whitespace, an
    optional sign, decimal digits in which single underscores may separate
    two digits, optional whitespace.  [None] stands for [ValueError].

    ASCII characters are read as they are; a code point from 127 on counts
    as a blank when it is Unicode whitespace and as a digit when the
    interpreter's table of decimal digits says so.  An interpreter may
    bound the number of digits it converts; the integer itself is
    unbounded. *)
Section Int.

(** The interpreter's table of the decimal digits outside ASCII (general
    category Nd, which grows with the Unicode version): [Some d] when
    the code point is the digit [d]. *)
Variable unicode_decimal : char -> option N.

(** The interpreter's limit on the digits of a numeral
    ([sys.get_int_max_str_digits()], 4300 unless set otherwise): 0 for no
    limit.  Numerals of 640 digits or fewer are never checked. *)
Variable max_str_digits : nat.

Definition too_many_digits (digits : nat) : bool :=
  (640 <? digits)%nat && (0 <? max_str_digits)%nat
  && (max_str_digits <? digits)%nat.

Definition int_isspace (c : char) : bool :=
  if c <? 127 then between 0x09 0x0D c || (c =? 0x20) else isspace c.

Definition digit_value (c : char) : option N :=
  if c <? 127 then (if between 48 57 c then Some (c - 48) else None)
  else unicode_decimal c.

Inductive scan_state := AtStart | AfterDigit | AfterUnderscore.

(** Reads the digits; returns their value, their number and what follows
    them. *)
Fixpoint scan_digits (st : scan_state) (acc : Z) (digits : nat) (s : str)
  : option (Z * nat * str) :=
  match s with
  | [] => match st with AfterDigit => Some (acc, digits, []) | _ => None end
  | c :: s' =>
      match digit_value c with
      | Some d =>
          scan_digits AfterDigit (10 * acc + Z.of_N d)%Z (S digits) s'
      | None =>
          match st with
          | AfterDigit =>
              if c =? 95 (* _ *)
              then scan_digits AfterUnderscore acc digits s'
              else Some (acc, digits, s)
          | _ => None
          end
      end
  end.

Fixpoint skip_blanks (s : str) : str :=
  match s with
  | [] => []
  | c :: s' => if int_isspace c then skip_blanks s' else s
  end.

Definition int_of_str (s : str) : option Z :=
  let s := skip_blanks s in
  let '(negative, s) :=
    match s with
    | c :: s' =>
        if c =? 45 (* - *) then (true, s')
        else if c =? 43 (* + *) then (false, s')
        else (false, s)
    | [] => (false, [])
    end in
  match scan_digits AtStart 0%Z O s with
  | Some (v, digits, rest) =>
      if too_many_digits digits then None
      else if forallb int_isspace rest
      then Some (if negative then (- v)%Z else v)
      else None
  | None => None
  end.

End Int.

End Py.

(** ** Exceptions and standard output *)

Inductive exn :=
| ValueError
| IndexError
| UnicodeEncodeError   (* a line standard output cannot encode *)
| OSError              (* a file that cannot be opened *)
| OtherError.          (* what a program the script calls may raise *)

(** A computation reads the lines printed so far and returns its outcome
    with the lines printed after it. *)
Definition Comp (A : Type) : Type := list str -> (exn + A) * list str.

Definition ret {A} (a : A) : Comp A := fun out => (inr a, out).

Definition raise {A} (e : exn) : Comp A := fun out => (inl e, out).

Definition bind {A B} (m : Comp A) (k : A -> Comp B) : Comp B :=
  fun out =>
    match m out with
    | (inr a, out') => k a out'
    | (inl e, out') => (inl e, out')
    end.

Notation "x <- m ;; k" := (bind m (fun x => k))
  (at level 61, m at next level, right associativity).
Notation "m ;; k" := (bind m (fun _ => k))
  (at level 61, right associativity).

(** [print(line)]. *)
Definition print (line : str) : Comp unit := fun out => (inr tt, out ++ [line]).

(** [l[i]]: raises [IndexError] out of range. *)
Definition index {A} (l : list A) (i : nat) : Comp A :=
  match nth_error l i with
  | Some x => ret x
  | None => raise IndexError
  end.

(** [int(s)]. *)
Definition int (unicode_decimal : char -> option N) (max_str_digits : nat)
  (s : str) : Comp Z :=
  match Py.int_of_str unicode_decimal max_str_digits s with
  | Some z => ret z
  | None => raise ValueError
  end.

(** [map(int, parts)], consumed to its end. *)
Fixpoint map_int (unicode_decimal : char -> option N) (max_str_digits : nat)
  (parts : list str) : Comp (list Z) :=
  match parts with
  | [] => ret []
  | p :: ps =>
      z <- int unicode_decimal max_str_digits p ;;
      zs <- map_int unicode_decimal max_str_digits ps ;;
      ret (z :: zs)
  end.

(** [for x in xs: body], with the variables the body updates as [s]. *)
Fixpoint for_each {A S} (xs : list A) (body : S -> A -> Comp S) (s : S)
  : Comp S :=
  match xs with
  | [] => ret s
  | x :: xs' => s' <- body s x ;; for_each xs' body s'
  end.

(** ** [difflib.SequenceMatcher(None, a, b)]

    No junk predicate is given, and the automatic junk heuristic only
    applies to a second sequence of 200 elements or more; the script's
    second sequences are two short literals.  What is left is the
    documented behaviour: the longest common block, earliest in [a] and
    then earliest in [b] among the longest ones, then the same to the left
    and to the right of it. *)
Module Difflib.

(** Length of the longest common prefix. *)
Fixpoint common_prefix (a b : str) : nat :=
  match a, b with
  | x :: a', y :: b' => if x =? y then S (common_prefix a' b') else O
  | _, _ => O
  end.

(** A block [(i, j, k)]: [a[i:i+k] == b[j:j+k]]. *)
Definition block := (nat * nat * nat)%type.

Definition size (m : block) : nat := snd m.

(** The blocks that start at position [i] of the first sequence, whose
    suffix from there is [ai]; [b] is the suffix of the second sequence
    from position [j].  A block replaces the best one only when it is
    strictly longer. *)
Fixpoint scan_b (ai b : str) (i j : nat) (best : block) : block :=
  match b with
  | [] => best
  | _ :: b' =>
      let k := common_prefix ai b in
      scan_b ai b' i (S j) (if (size best <? k)%nat then (i, j, k) else best)
  end.

Fixpoint scan_a (a b : str) (i : nat) (best : block) : block :=
  match a with
  | [] => best
  | _ :: a' => scan_a a' b (S i) (scan_b a b i O best)
  end.

(** [find_longest_match()] over the whole of [a] and [b]. *)
Definition find_longest_match (a b : str) : block := scan_a a b O (O, O, O).

(** Sum of the sizes of [get_matching_blocks()].  Each round splits both
    sequences around the longest block; a side is examined only when it
    is non-empty in both sequences. *)
Fixpoint matches_fuel (fuel : nat) (a b : str) : nat :=
  match fuel with
  | O => O
  | S fuel' =>
      let '(i, j, k) := find_longest_match a b in
      if (k =? 0)%nat then O
      else
        (k
         + (if (0 <? i)%nat && (0 <? j)%nat
            then matches_fuel fuel' (firstn i a) (firstn j b) else O)
         + (if (i + k <? length a)%nat && (j + k <? length b)%nat
            then matches_fuel fuel' (skipn (i + k) a) (skipn (j + k) b)
            else O))%nat
  end.

Definition matches (a b : str) : nat := matches_fuel (S (length a)) a b.

(** [ratio()]: [2.0 * matches / length], and [1.0] for two empty
    sequences.  The quotient is kept exact. *)
Definition ratio (a b : str) : Q :=
  let total := (length a + length b)%nat in
  match total with
  | O => 1%Q
  | S _ => (Z.of_nat (2 * matches a b) # Pos.of_nat total)%Q
  end.

End Difflib.

(** [x > y] on rationals. *)
Definition Qgtb (x y : Q) : bool :=
  match (x ?= y)%Q with Gt => true | _ => false end.

(** ** The script *)

(** The three characters the source writes for a mis-decoded em dash. *)
Definition mojibake_dash : str := [0xE2; 0x20AC; 0x201D].

(** The character class of the regular expression [[^a-zA-Z0-9 :.,\-]],
    without the negation. *)
Definition kept (c : char) : bool :=
  between 97 122 c || between 65 90 c || between 48 57 c
  || (c =? 32) || (c =? 58) || (c =? 46) || (c =? 44) || (c =? 45).

(** [re.sub(r'[^a-zA-Z0-9 :.,\-]', '', line)]. *)
Definition re_sub_not_kept (line : str) : str := filter kept line.

Definition clean_ocr_line (line : str) : str :=
  let line := Py.replace (lit "O") (lit "0") line in
  let line := Py.replace (lit "Q") (lit "0") line in
  let line := Py.replace mojibake_dash (lit "-") line in
  let line := Py.replace (lit "=") (lit "-") line in
  let line := re_sub_not_kept line in
  Py.strip line.

(** The comparison [ratio() > 0.6] is made on the exact quotient: the
    floating-point quotient and the constant [0.6] compare the same way
    for every pair of sequences a machine can hold. *)
Definition fuzzy_match (text pattern : str) : bool :=
  Qgtb (Difflib.ratio text pattern) (6 # 10).

Definition parse_timestamp (unicode_decimal : char -> option N)
  (max_str_digits : nat) (timestamp : str) : Comp Z :=
  if Py.contains 58 (* : *) timestamp then
    vals <- map_int unicode_decimal max_str_digits
              (Py.split_on 58 timestamp) ;;
    match vals with
    | [minutes; seconds] => ret (minutes * 60 + seconds)%Z
    | _ => raise ValueError
    end
  else int unicode_decimal max_str_digits timestamp.

Definition debug_line (cleaned : str) : str :=
  lit "[DEBUG] Matched Kill Line: " ++ cleaned.

Definition kill_record (timestamp name faction weapon : str) : str :=
  lit "Time: " ++ timestamp ++ lit " | Name: " ++ name
  ++ lit " | Faction: " ++ faction ++ lit " | Weapon: " ++ weapon.

(** The body of the loop of [parse_kill_list]; [kill_data] is the list the
    loop appends to. *)
Definition kill_line (kill_data : list str) (line : str) : Comp (list str) :=
  let cleaned := clean_ocr_line line in
  if fuzzy_match cleaned (lit "Customs") && fuzzy_match cleaned (lit "SCAV")
  then
    print (debug_line cleaned) ;;
    let parts := Py.split cleaned in
    if (5 <=? length parts)%nat then
      timestamp <- index parts 1 ;;
      name <- index parts 2 ;;
      faction <- index parts 4 ;;
      let weapon := Py.join (lit " ") (Py.slice_from 5 parts) in
      ret (kill_data ++ [kill_record timestamp name faction weapon])
    else ret kill_data
  else ret kill_data.

Definition parse_kill_list (ocr_text : str) : Comp (list str) :=
  for_each (Py.splitlines ocr_text) kill_line [].

(** ** The Line Cleaner in the words of the specification (section 4.5) *)

Definition spec_letters_to_zero (line : str) : str :=
  map (fun c => if (c =? 79 (* O *)) || (c =? 81 (* Q *)) then 48 else c) line.

Definition spec_dash_sequence (line : str) : str :=
  Py.replace mojibake_dash (lit "-") line.

Definition spec_equals_to_dash (line : str) : str :=
  map (fun c => if c =? 61 (* = *) then 45 else c) line.

Definition spec_allowed (c : char) : bool :=
  between 97 122 c || between 65 90 c     (* letters *)
  || between 48 57 c                      (* digits *)
  || existsb (N.eqb c) (lit " :.,-").

Definition spec_strip_others (line : str) : str := filter spec_allowed line.

Definition spec_trim (line : str) : str := Py.strip line.

Definition spec_clean_line (line : str) : str :=
  spec_trim
    (spec_strip_others
       (spec_equals_to_dash (spec_dash_sequence (spec_letters_to_zero line)))).

(** The string is empty or starts with a character that is no blank. *)
Definition no_leading_space (s : str) : Prop :=
  match s with [] => True | c :: _ => Py.isspace c = false end.

(** What the four replacements leave: neither [O] nor [Q]. *)
Definition not_OQ (c : char) : Prop := c <> 79 /\ c <> 81.

(** The line after the replacements and before the filter. *)
Definition replaced (line : str) : str :=
  Py.replace (lit "=") (lit "-")
    (Py.replace mojibake_dash (lit "-")
       (Py.replace (lit "Q") (lit "0") (Py.replace (lit "O") (lit "0") line))).

(** ** Numerals, for the statements about [parse_timestamp] *)

Definition is_ascii_digit (c : char) : bool := between 48 57 c.

(** A non-empty string of the digits [0] to [9]. *)
Definition is_numeral (s : str) : bool :=
  match s with [] => false | _ :: _ => forallb is_ascii_digit s end.

(** The number a string of digits denotes in base ten. *)
Definition numeral_value (s : str) : Z :=
  fold_left (fun acc c => 10 * acc + Z.of_N (c - 48))%Z s 0%Z.

(** An interpreter whose digits are the ASCII ones. *)
Definition ascii_digits_only : char -> option N := fun _ => None.

(** The limit on the digits of a numeral that interpreters start with. *)
Definition default_max_str_digits : nat := 4300.

(** A numeral of [digits] digits is within the limit [max_str_digits]. *)
Definition digits_allowed (max_str_digits digits : nat) : bool :=
  negb (Py.too_many_digits max_str_digits digits).

(** ** Vocabulary for the statements about the matcher *)

(** A block lies inside both sequences and covers equal characters. *)
Definition valid_block (a b : str) (m : Difflib.block) : Prop :=
  let '(i, j, k) := m in
  firstn k (skipn i a) = firstn k (skipn j b)
  /\ (i + k <= length a)%nat /\ (j + k <= length b)%nat.

(** Number of characters of [s] that satisfy [f]. *)
Definition count_if (f : char -> bool) (s : str) : nat := length (filter f s).

(** Every character of [s] is charged to one of two predicates. *)
Definition covered (P R : char -> bool) (s : str) : Prop :=
  Forall (fun c => P c = true \/ R c = true) s.

(** The letters of ["SCAV"] and of ["Customs"] other than their common [C]. *)
Definition is_C (c : char) : bool := c =? 67.
Definition in_SAV (c : char) : bool := (c =? 83) || (c =? 65) || (c =? 86).
Definition in_ustom (c : char) : bool :=
  (c =? 117) || (c =? 115) || (c =? 116) || (c =? 111) || (c =? 109).

(** The test of the loop body on a cleaned line. *)
Definition both_match (cleaned : str) : bool :=
  fuzzy_match cleaned (lit "Customs") && fuzzy_match cleaned (lit "SCAV").

(** The record a line contributes, if any: the fields are read at the
    positions the loop body reads them. *)
Definition record_of_line (line : str) : option str :=
  let cleaned := clean_ocr_line line in
  let parts := Py.split cleaned in
  if both_match cleaned && (5 <=? length parts)%nat
  then Some (kill_record (nth 1 parts []) (nth 2 parts []) (nth 4 parts [])
               (Py.join (lit " ") (skipn 5 parts)))
  else None.

Definition records_of (lines : list str) : list str :=
  flat_map (fun line => match record_of_line line with
                        | Some r => [r]
                        | None => []
                        end) lines.

(** The messages the loop prints: one for each line that passes the test. *)
Definition debug_lines (lines : list str) : list str :=
  flat_map (fun line => if both_match (clean_ocr_line line)
                        then [debug_line (clean_ocr_line line)] else []) lines.

(** ** The loop body with its test as a parameter

    [kill_line_with accepts] is the loop body of [parse_kill_list] in which
    the test of line 58 is [accepts cleaned]; with the test of the script,
    [both_match], it is [kill_line].  It serves to state what lines 59 to 67
    do with a line once the test has let it through. *)
Definition kill_line_with (accepts : str -> bool) (kill_data : list str)
  (line : str) : Comp (list str) :=
  let cleaned := clean_ocr_line line in
  if accepts cleaned
  then
    print (debug_line cleaned) ;;
    let parts := Py.split cleaned in
    if (5 <=? length parts)%nat then
      timestamp <- index parts 1 ;;
      name <- index parts 2 ;;
      faction <- index parts 4 ;;
      let weapon := Py.join (lit " ") (Py.slice_from 5 parts) in
      ret (kill_data ++ [kill_record timestamp name faction weapon])
    else ret kill_data
  else ret kill_data.

Definition parse_kill_list_with (accepts : str -> bool) (ocr_text : str)
  : Comp (list str) :=
  for_each (Py.splitlines ocr_text) (kill_line_with accepts) [].


(** A test that lets every line through. *)
Definition accept_all : str -> bool := fun _ => true.

(** ** Vocabulary for the further properties *)

(** The blanks of ASCII: tab, line feed, vertical tab, form feed, carriage
    return, space. *)
Definition ascii_blank (c : char) : bool := between 0x09 0x0D c || (c =? 0x20).

(** Number of colons of a string. *)
Definition colons (s : str) : nat := count_if (N.eqb 58) s.

(** The string starts, ends, with a blank. *)
Definition starts_blank (s : str) : bool :=
  match s with [] => false | c :: _ => Py.isspace c end.

Fixpoint ends_blank (s : str) : bool :=
  match s with
  | [] => false
  | [c] => Py.isspace c
  | _ :: s' => ends_blank s'
  end.

(** A character the cleaner leaves alone; a line it leaves alone. *)
Definition clean_char (c : char) : bool :=
  kept c && negb (c =? 79) && negb (c =? 81).

Definition is_clean (s : str) : bool :=
  forallb clean_char s && negb (starts_blank s) && negb (ends_blank s).

(** The message of the loop for one line, if the line passes both tests. *)
Definition debug_of_line (line : str) : list str :=
  if both_match (clean_ocr_line line)
  then [lit "[DEBUG] Matched Kill Line: " ++ clean_ocr_line line]
  else [].

(** ** Frames and the kill log

    [process_kill_list] and the loop that ends the script.  The state is
    what the script has printed and the content of the kill log, [None]
    until the file exists.  Reading a frame and recognising its text are
    done by other programs, and whether a line can be printed or the log
    opened depends on the machine: all four are parameters, and each may
    fail. *)

Record world := { printed : list str; kill_log : option str }.

(** The content a file opened for appending starts from. *)
Definition log_content (log : option str) : str :=
  match log with Some content => content | None => [] end.

(** What a call returns: Python's [None], or a list. *)
Inductive retval := RNone | RList (l : list str).

Section Frames.

Variable image : Type.

(** Whether the encoding of standard output can write a line. *)
Variable stdout_encodes : str -> bool.

(** [cv2.imread(os.path.join(output_dir, frame_file))]: [None] when the
    frame cannot be read. *)
Variable imread_frame : str -> exn + option image.

(** Lines 120 to 126 on an image that was read: its shape, the region of
    interest cut out of it and [pytesseract.image_to_string] on that
    region. *)
Variable ocr_region : image -> exn + str.

(** Whether [open(log_file, "a")] succeeds, given what has happened so
    far. *)
Variable log_opens : world -> bool.

(** [print(line)] where the line may hold any character. *)
Definition print_line (line : str) (w : world) : (exn + unit) * world :=
  if stdout_encodes line
  then (inr tt, {| printed := printed w ++ [line]; kill_log := kill_log w |})
  else (inl UnicodeEncodeError, w).

(** The loop inside [with open(log_file, "a")]: one line of text written
    and one message printed for each record. *)
Fixpoint log_kills (kill_list : list str) (w : world)
  : (exn + unit) * world :=
  match kill_list with
  | [] => (inr tt, w)
  | kill :: rest =>
      let written :=
        {| printed := printed w;
           kill_log := Some (log_content (kill_log w) ++ kill ++ [10]) |} in
      match print_line (lit "[LOGGED] " ++ kill) written with
      | (inl e, w') => (inl e, w')
      | (inr _, w') => log_kills rest w'
      end
  end.

Definition process_kill_list (frame_file : str) (w : world)
  : (exn + retval) * world :=
  match
    print_line (lit "[DEBUG] Extracting kill rows from " ++ frame_file) w
  with
  | (inl e, w1) => (inl e, w1)
  | (inr _, w1) =>
      match imread_frame frame_file with
      | inl e => (inl e, w1)
      | inr None =>
          match
            print_line (lit "[ERROR] Failed to load image " ++ frame_file) w1
          with
          | (inl e, w2) => (inl e, w2)
          | (inr _, w2) => (inr (RList []), w2)
          end
      | inr (Some img) =>
          match ocr_region img with
          | inl e => (inl e, w1)
          | inr text =>
              match parse_kill_list text (printed w1) with
              | (inl e, out) =>
                  (inl e, {| printed := out; kill_log := kill_log w1 |})
              | (inr kill_list, out) =>
                  let w2 := {| printed := out; kill_log := kill_log w1 |} in
                  if log_opens w2 then
                    match
                      log_kills kill_list
                        {| printed := out;
                           kill_log := Some (log_content (kill_log w1)) |}
                    with
                    | (inl e, w3) => (inl e, w3)
                    | (inr _, w3) => (inr RNone, w3)
                    end
                  else (inl OSError, w2)
              end
          end
      end
  end.

(** [for frame in frame_list: process_kill_list(frame)]. *)
Fixpoint process_frames (frame_list : list str) (w : world)
  : (exn + unit) * world :=
  match frame_list with
  | [] => (inr tt, w)
  | frame :: rest =>
      match process_kill_list frame w with
      | (inl e, w') => (inl e, w')
      | (inr _, w') => process_frames rest w'
      end
  end.

End Frames.

(* ===================================================================== *)
(** * Part II. Properties                                                 *)
(* ===================================================================== *)

(** ** The built-ins on sample values *)

Example replace_no_overlap :
  Py.replace (lit "XX") (lit "-") (lit "aXXXb") = lit "a-Xb".
Proof. reflexivity. Qed.

Example replace_dash_sequence :
  Py.replace mojibake_dash (lit "-") ([0xE2] ++ mojibake_dash ++ [0x20AC])
  = [0xE2; 45; 0x20AC].
Proof. reflexivity. Qed.

Example strip_blanks : Py.strip [0x1F; 32; 97; 32; 98; 0x1C] = lit "a b".
Proof. reflexivity. Qed.

Example split_runs : Py.split (lit "  a  bc d ") = [lit "a"; lit "bc"; lit "d"].
Proof. reflexivity. Qed.

Example split_on_colon :
  Py.split_on 58 (lit "1::2") = [lit "1"; []; lit "2"].
Proof. reflexivity. Qed.

Example splitlines_breaks :
  Py.splitlines [97; 13; 10; 98; 13; 99; 10; 10; 100; 10]
  = [lit "a"; lit "b"; lit "c"; []; lit "d"].
Proof. reflexivity. Qed.

Example int_samples :
  map (Py.int_of_str ascii_digits_only default_max_str_digits)
    [lit "05"; lit " +5 "; lit "-12"; lit "1_000"; lit "- 5"; lit "1__0";
     lit "_1"; lit "1_"; lit ""; lit "+"; lit "0x10"; [0x1C; 53]; [0xA0; 53]]
  = [Some 5; Some 5; Some (-12); Some 1000; None; None;
     None; None; None; None; None; None; Some 5]%Z.
Proof. reflexivity. Qed.

Example int_digit_limit :
  Py.int_of_str ascii_digits_only default_max_str_digits (repeat 48 4301)
  = None
  /\ Py.int_of_str ascii_digits_only default_max_str_digits (repeat 48 4300)
     = Some 0%Z
  /\ Py.int_of_str ascii_digits_only default_max_str_digits
       (lit " -" ++ repeat 48 4300 ++ lit "  ")
     = Some 0%Z
  /\ Py.int_of_str ascii_digits_only 0 (repeat 48 4301) = Some 0%Z.
Proof. vm_compute. repeat split. Qed.

Example longest_match_earliest :
  Difflib.find_longest_match (lit "xabyab") (lit "ab_ab") = (1, 0, 2)%nat.
Proof. reflexivity. Qed.

Example matches_samples :
  map (fun a => (Difflib.matches a (lit "Customs"),
                 Difflib.matches a (lit "SCAV")))
    [lit "SCustoAV"; lit "SCustomAV"; lit "CSustoAV"; lit "Customs";
     lit "12:34 Customs PMC SCAV AK-74"]
  = [(5, 4); (6, 4); (5, 3); (7, 1); (7, 4)]%nat.
Proof. vm_compute. reflexivity. Qed.

Example fuzzy_match_samples :
  map (fun a => (fuzzy_match a (lit "Customs"), fuzzy_match a (lit "SCAV")))
    [lit "SCustoAV"; lit "CSustoAV"; lit "Customs"; lit "SCAV"; lit "Custo"]
  = [(true, true); (true, false); (true, false); (false, true);
     (true, false)].
Proof. vm_compute. reflexivity. Qed.

(** ** Facts about the string built-ins *)

Section ReplaceFacts.

Variables old new : str.

Lemma starts_with_length (p s : str) :
  Py.starts_with p s = true -> (length p <= length s)%nat.
Proof.
  revert s; induction p as [|x p IH]; intros [|y s]; simpl; intros H.
  - lia.
  - lia.
  - discriminate H.
  - apply andb_true_iff in H as [_ H]. apply IH in H. lia.
Qed.

(** A replacement only emits characters of the input or of [new]. *)
Lemma replace_from_Forall (P : char -> Prop) (s : str) :
  Forall P new -> Forall P s ->
  forall skip, Forall P (Py.replace_from old new skip s).
Proof.
  intros Hnew Hs. induction Hs as [|c s Hc Hs IH]; intros skip; simpl.
  - constructor.
  - destruct skip as [|k]; [|apply IH].
    destruct (Py.starts_with old (c :: s)).
    + apply Forall_app; split; [exact Hnew | apply IH].
    + constructor; [exact Hc | apply IH].
Qed.

(** It never lengthens the input when [new] is no longer than [old]. *)
Lemma replace_from_length (s : str) :
  (length new <= length old)%nat ->
  forall skip, (length (Py.replace_from old new skip s) <= length s - skip)%nat.
Proof.
  intros Hlen. induction s as [|c s IH]; intros skip; simpl; [lia|].
  destruct skip as [|k].
  - destruct (Py.starts_with old (c :: s)) eqn:E.
    + apply starts_with_length in E. simpl in E.
      rewrite length_app. specialize (IH (length old - 1)%nat). lia.
    + simpl. specialize (IH O). lia.
  - apply IH.
Qed.

End ReplaceFacts.

(** Replacing one character by one character is a character map. *)
Lemma replace_char_map (x y : char) (s : str) :
  Py.replace [x] [y] s = map (fun c => if c =? x then y else c) s.
Proof.
  unfold Py.replace. induction s as [|c s IH]; simpl; [reflexivity|].
  rewrite andb_true_r, (N.eqb_sym x c).
  destruct (c =? x); simpl; rewrite IH; reflexivity.
Qed.

(** A string without the first character of [old] has no occurrence of it. *)
Lemma replace_absent (x : char) (old' new s : str) :
  Forall (fun c => c <> x) s -> Py.replace (x :: old') new s = s.
Proof.
  unfold Py.replace. induction 1 as [|c s Hc _ IH]; simpl; [reflexivity|].
  destruct (N.eqb_spec x c) as [->|_]; [contradiction|].
  simpl. rewrite IH. reflexivity.
Qed.

Lemma replace_Forall (P : char -> Prop) (x : char) (old' new s : str) :
  Forall P new -> Forall P s -> Forall P (Py.replace (x :: old') new s).
Proof. intros Hn Hs. apply replace_from_Forall; assumption. Qed.

Lemma replace_length (x : char) (old' new s : str) :
  (length new <= length (x :: old'))%nat ->
  (length (Py.replace (x :: old') new s) <= length s)%nat.
Proof.
  intros H. unfold Py.replace.
  pose proof (replace_from_length (x :: old') new s H O). lia.
Qed.

Section StripFacts.

Lemma lstrip_Forall (P : char -> Prop) (s : str) :
  Forall P s -> Forall P (Py.lstrip s).
Proof.
  induction 1 as [|c s Hc Hs IH]; simpl; [constructor|].
  destruct (Py.isspace c); [exact IH | constructor; assumption].
Qed.

Lemma rstrip_Forall (P : char -> Prop) (s : str) :
  Forall P s -> Forall P (Py.rstrip s).
Proof.
  induction 1 as [|c s Hc Hs IH]; simpl; [constructor|].
  destruct (Py.rstrip s) as [|d r].
  - destruct (Py.isspace c); constructor; [assumption | constructor].
  - constructor; assumption.
Qed.

Lemma lstrip_length (s : str) : (length (Py.lstrip s) <= length s)%nat.
Proof.
  induction s as [|c s IH]; simpl; [lia|].
  destruct (Py.isspace c); simpl; lia.
Qed.

Lemma rstrip_length (s : str) : (length (Py.rstrip s) <= length s)%nat.
Proof.
  induction s as [|c s IH]; simpl; [lia|].
  destruct (Py.rstrip s) as [|d r].
  - destruct (Py.isspace c); simpl; lia.
  - simpl in *. lia.
Qed.

Lemma lstrip_no_leading_space (s : str) : no_leading_space (Py.lstrip s).
Proof.
  induction s as [|c s IH]; simpl; [exact I|].
  destruct (Py.isspace c) eqn:E; [exact IH | exact E].
Qed.

Lemma rstrip_no_leading_space (s : str) :
  no_leading_space s -> no_leading_space (Py.rstrip s).
Proof.
  destruct s as [|c s]; simpl; [trivial|]. intros E.
  destruct (Py.rstrip s); [rewrite E|]; exact E.
Qed.

Lemma lstrip_fixed (s : str) : no_leading_space s -> Py.lstrip s = s.
Proof. destruct s as [|c s]; simpl; [trivial|]. intros ->. reflexivity. Qed.

Lemma rstrip_idempotent (s : str) : Py.rstrip (Py.rstrip s) = Py.rstrip s.
Proof.
  induction s as [|c s IH]; simpl; [reflexivity|].
  destruct (Py.rstrip s) as [|d r] eqn:E.
  - destruct (Py.isspace c) eqn:Ec; simpl; [reflexivity|].
    rewrite Ec. reflexivity.
  - change (Py.rstrip (c :: d :: r)) with
      (match Py.rstrip (d :: r) with
       | [] => if Py.isspace c then [] else [c]
       | r' => c :: r'
       end).
    rewrite IH. reflexivity.
Qed.

Lemma strip_idempotent (s : str) : Py.strip (Py.strip s) = Py.strip s.
Proof.
  unfold Py.strip.
  rewrite (lstrip_fixed (Py.rstrip (Py.lstrip s))).
  - apply rstrip_idempotent.
  - apply rstrip_no_leading_space, lstrip_no_leading_space.
Qed.

Lemma strip_Forall (P : char -> Prop) (s : str) :
  Forall P s -> Forall P (Py.strip s).
Proof. intros H. apply rstrip_Forall, lstrip_Forall, H. Qed.

Lemma strip_length (s : str) : (length (Py.strip s) <= length s)%nat.
Proof.
  unfold Py.strip.
  pose proof (rstrip_length (Py.lstrip s)). pose proof (lstrip_length s). lia.
Qed.

End StripFacts.

(** ** The Line Cleaner *)

Lemma spec_allowed_kept (c : char) : spec_allowed c = kept c.
Proof.
  unfold spec_allowed, kept.
  change (lit " :.,-") with [32; 58; 46; 44; 45]. simpl.
  rewrite orb_false_r, !orb_assoc. reflexivity.
Qed.

Lemma letters_to_zero_replace (s : str) :
  Py.replace (lit "Q") (lit "0") (Py.replace (lit "O") (lit "0") s)
  = spec_letters_to_zero s.
Proof.
  change (lit "Q") with [81]; change (lit "O") with [79];
    change (lit "0") with [48].
  rewrite !replace_char_map, map_map. apply map_ext. intros c.
  destruct (N.eqb_spec c 79) as [->|_]; simpl; reflexivity.
Qed.

Lemma letters_to_zero_not_OQ (s : str) : Forall not_OQ (spec_letters_to_zero s).
Proof.
  unfold spec_letters_to_zero. apply Forall_forall. intros c Hc.
  apply in_map_iff in Hc as (d & <- & _). unfold not_OQ.
  destruct (N.eqb_spec d 79), (N.eqb_spec d 81); simpl; lia.
Qed.

Lemma clean_ocr_line_unfold (line : str) :
  clean_ocr_line line = Py.strip (filter kept (replaced line)).
Proof. reflexivity. Qed.

Lemma replaced_not_OQ (line : str) : Forall not_OQ (replaced line).
Proof.
  unfold replaced. rewrite letters_to_zero_replace.
  assert (Hdash : Forall not_OQ (lit "-"))
    by (repeat constructor; unfold not_OQ; cbn; lia).
  change (lit "=") with [61]. unfold mojibake_dash.
  apply replace_Forall; [exact Hdash|].
  apply replace_Forall; [exact Hdash|].
  apply letters_to_zero_not_OQ.
Qed.

Lemma replaced_length (line : str) :
  (length (replaced line) <= length line)%nat.
Proof.
  unfold replaced.
  change (lit "=") with [61]; change (lit "Q") with [81];
    change (lit "O") with [79]; unfold mojibake_dash.
  eapply Nat.le_trans; [apply replace_length; simpl; lia|].
  eapply Nat.le_trans; [apply replace_length; simpl; lia|].
  eapply Nat.le_trans; [apply replace_length; simpl; lia|].
  apply replace_length; simpl; lia.
Qed.

Lemma filter_length_le {A} (f : A -> bool) (l : list A) :
  (length (filter f l) <= length l)%nat.
Proof. induction l as [|x l IH]; simpl; [lia|]. destruct (f x); simpl; lia. Qed.

Lemma filter_Forall_keeps {A} (P : A -> Prop) (f : A -> bool) (l : list A) :
  Forall P l -> Forall P (filter f l).
Proof.
  induction 1 as [|x l Hx _ IH]; simpl; [constructor|].
  destruct (f x); [constructor|]; assumption.
Qed.

Lemma filter_Forall_true {A} (f : A -> bool) (l : list A) :
  Forall (fun x => f x = true) (filter f l).
Proof. apply Forall_forall. intros x Hx. apply filter_In in Hx. tauto. Qed.

Lemma filter_fixed {A} (f : A -> bool) (l : list A) :
  Forall (fun x => f x = true) l -> filter f l = l.
Proof.
  induction 1 as [|x l Hx _ IH]; simpl; [reflexivity|].
  rewrite Hx, IH. reflexivity.
Qed.

(** Every character of a cleaned line is kept by the regular expression and
    is neither [O] nor [Q]. *)
Lemma clean_ocr_line_chars (line : str) :
  Forall (fun c => kept c = true /\ not_OQ c) (clean_ocr_line line).
Proof.
  rewrite clean_ocr_line_unfold. apply strip_Forall.
  apply Forall_and.
  - apply filter_Forall_true.
  - apply filter_Forall_keeps, replaced_not_OQ.
Qed.

(** C5. [clean_ocr_line("O1:Q5=Customs")] is ["01:05-Customs"], and on every
    line the function is the composition of the five steps of the
    specification in the order in which it lists them: [O] and [Q] to [0],
    the mis-decoded dash to [-], [=] to [-], removal of the characters
    outside the allowed set, trimming. *)
Theorem clean_ocr_line_example_and_order :
  clean_ocr_line (lit "O1:Q5=Customs") = lit "01:05-Customs"
  /\ forall line : str, clean_ocr_line line = spec_clean_line line.
Proof.
  split; [vm_compute; reflexivity|].
  intros line. rewrite clean_ocr_line_unfold.
  unfold spec_clean_line, spec_trim, spec_strip_others, spec_dash_sequence,
    replaced.
  rewrite letters_to_zero_replace.
  change (lit "=") with [61]; change (lit "-") with [45].
  rewrite replace_char_map.
  f_equal. apply filter_ext. intros c. symmetry. apply spec_allowed_kept.
Qed.

(** C6. [clean_ocr_line] is idempotent. *)
Theorem clean_ocr_line_idempotent (s : str) :
  clean_ocr_line (clean_ocr_line s) = clean_ocr_line s.
Proof.
  pose proof (clean_ocr_line_chars s) as H.
  set (r := clean_ocr_line s) in *.
  assert (Hkept : Forall (fun c => kept c = true) r).
  { eapply Forall_impl; [|exact H]. simpl. tauto. }
  assert (Hne : forall x, kept x = false \/ x = 79 \/ x = 81 ->
                          Forall (fun c => c <> x) r).
  { intros x Hx. eapply Forall_impl; [|exact H]. simpl.
    intros c [Hc [HO HQ]] ->. destruct Hx as [Hx|[Hx|Hx]]; congruence. }
  rewrite clean_ocr_line_unfold. unfold replaced.
  change (lit "=") with [61]; change (lit "Q") with [81];
    change (lit "O") with [79]; unfold mojibake_dash.
  rewrite (replace_absent 79) by (apply Hne; auto).
  rewrite (replace_absent 81) by (apply Hne; auto).
  rewrite (replace_absent 0xE2) by (apply Hne; left; reflexivity).
  rewrite (replace_absent 61) by (apply Hne; left; reflexivity).
  rewrite (filter_fixed kept r Hkept).
  subst r. rewrite clean_ocr_line_unfold. apply strip_idempotent.
Qed.

(** C7. The cleaned line is no longer than the input, and each of its
    characters is a letter, a digit, a space or one of [: . , -]. *)
Theorem clean_ocr_line_length_and_charset (line : str) :
  (length (clean_ocr_line line) <= length line)%nat
  /\ Forall (fun c => spec_allowed c = true) (clean_ocr_line line).
Proof.
  split.
  - rewrite clean_ocr_line_unfold.
    pose proof (strip_length (filter kept (replaced line))).
    pose proof (filter_length_le kept (replaced line)).
    pose proof (replaced_length line). lia.
  - eapply Forall_impl; [|apply clean_ocr_line_chars]. simpl.
    intros c [Hc _]. rewrite spec_allowed_kept. exact Hc.
Qed.

(** ** The Timestamp Parser *)

Section SplitOnFacts.

Variable sep : char.

Lemma split_on_from_app (m rest cur : str) :
  ~ In sep m ->
  Py.split_on_from sep cur (m ++ sep :: rest)
  = (rev cur ++ m) :: Py.split_on_from sep [] rest.
Proof.
  revert cur. induction m as [|c m IH]; intros cur Hm; simpl.
  - rewrite N.eqb_refl, app_nil_r. reflexivity.
  - destruct (N.eqb_spec c sep) as [->|_]; [exfalso; apply Hm; now left|].
    rewrite IH by (intros H; apply Hm; now right).
    simpl. rewrite <- app_assoc. reflexivity.
Qed.

Lemma split_on_from_absent (s cur : str) :
  ~ In sep s -> Py.split_on_from sep cur s = [rev cur ++ s].
Proof.
  revert cur. induction s as [|c s IH]; intros cur Hs; simpl.
  - rewrite app_nil_r. reflexivity.
  - destruct (N.eqb_spec c sep) as [->|_]; [exfalso; apply Hs; now left|].
    rewrite IH by (intros H; apply Hs; now right).
    simpl. rewrite <- app_assoc. reflexivity.
Qed.

Lemma split_on_two (m s : str) :
  ~ In sep m -> ~ In sep s -> Py.split_on sep (m ++ sep :: s) = [m; s].
Proof.
  intros Hm Hs. unfold Py.split_on.
  rewrite split_on_from_app by exact Hm.
  rewrite split_on_from_absent by exact Hs. reflexivity.
Qed.

Lemma contains_In (s : str) : Py.contains sep s = true <-> In sep s.
Proof.
  unfold Py.contains. rewrite existsb_exists. split.
  - intros (c & Hc & E). apply N.eqb_eq in E. subst. exact Hc.
  - intros H. exists sep. split; [exact H | apply N.eqb_refl].
Qed.

Lemma contains_absent (s : str) : ~ In sep s -> Py.contains sep s = false.
Proof.
  intros H. destruct (Py.contains sep s) eqn:E; [|reflexivity].
  apply contains_In in E. contradiction.
Qed.

End SplitOnFacts.

Section IntFacts.

Variable unicode_decimal : char -> option N.
Variable max_str_digits : nat.

(** The colon is no blank, no digit, no sign and no underscore. *)
Lemma scan_digits_colon (s : str) :
  forall st acc n v digits rest,
    Py.scan_digits unicode_decimal st acc n s = Some (v, digits, rest) ->
    ~ In 58 rest -> ~ In 58 s.
Proof.
  induction s as [|c s IH]; intros st acc n v digits rest H Hrest;
    cbn [Py.scan_digits] in H.
  - intros [].
  - destruct (Py.digit_value unicode_decimal c) as [d|] eqn:Ed.
    + intros [->|Hin]; [vm_compute in Ed; discriminate|].
      exact (IH _ _ _ _ _ _ H Hrest Hin).
    + destruct st; try discriminate.
      destruct (N.eqb_spec c 95) as [->|_].
      * intros [E|Hin]; [discriminate|].
        exact (IH _ _ _ _ _ _ H Hrest Hin).
      * injection H as _ _ <-. exact Hrest.
Qed.

Lemma blanks_colon (s : str) :
  forallb Py.int_isspace s = true -> ~ In 58 s.
Proof.
  intros H Hin. rewrite forallb_forall in H. apply H in Hin.
  vm_compute in Hin. discriminate.
Qed.

Lemma skip_blanks_colon (s : str) : ~ In 58 (Py.skip_blanks s) -> ~ In 58 s.
Proof.
  induction s as [|c s IH]; simpl; [trivial|].
  destruct (Py.int_isspace c) eqn:E; [|trivial].
  intros H [->|Hin]; [vm_compute in E; discriminate|]. exact (IH H Hin).
Qed.

(** The digits and the blanks after them, once the sign is read. *)
Lemma unsigned_colon (negative : bool) (u : str) (z : Z) :
  match Py.scan_digits unicode_decimal Py.AtStart 0%Z O u with
  | Some (v, digits, rest) =>
      if Py.too_many_digits max_str_digits digits then None
      else if forallb Py.int_isspace rest
      then Some (if negative then (- v)%Z else v)
      else None
  | None => None
  end = Some z ->
  ~ In 58 u.
Proof.
  destruct (Py.scan_digits unicode_decimal Py.AtStart 0%Z O u)
    as [[[v digits] rest]|] eqn:E; [|discriminate].
  destruct (Py.too_many_digits max_str_digits digits); [discriminate|].
  destruct (forallb Py.int_isspace rest) eqn:Er; [|discriminate].
  intros _. eapply scan_digits_colon; [exact E | apply blanks_colon, Er].
Qed.

(** A string that [int] accepts holds no colon. *)
Lemma int_of_str_colon (s : str) (z : Z) :
  Py.int_of_str unicode_decimal max_str_digits s = Some z -> ~ In 58 s.
Proof.
  unfold Py.int_of_str. intros H. apply skip_blanks_colon.
  destruct (Py.skip_blanks s) as [|c t]; [intros []|].
  destruct (N.eqb_spec c 45) as [->|_]; [|destruct (N.eqb_spec c 43) as [->|_]].
  - apply (unsigned_colon true) in H. intros [E|Hin]; [discriminate | auto].
  - apply (unsigned_colon false) in H. intros [E|Hin]; [discriminate | auto].
  - apply (unsigned_colon false) in H. exact H.
Qed.

Lemma digit_value_ascii (c : char) :
  is_ascii_digit c = true -> Py.digit_value unicode_decimal c = Some (c - 48).
Proof.
  unfold is_ascii_digit, Py.digit_value, between. intros H.
  apply andb_true_iff in H as [H1 H2]. apply N.leb_le in H1, H2.
  destruct (N.ltb_spec c 127); [|lia].
  unfold between.
  rewrite (proj2 (N.leb_le 48 c) H1), (proj2 (N.leb_le c 57) H2).
  reflexivity.
Qed.

Lemma scan_digits_numeral (s : str) :
  forallb is_ascii_digit s = true ->
  forall acc n,
    Py.scan_digits unicode_decimal Py.AfterDigit acc n s
    = Some (fold_left (fun a c => 10 * a + Z.of_N (c - 48))%Z s acc,
            (n + length s)%nat, []).
Proof.
  induction s as [|c s IH]; intros H acc n; cbn [Py.scan_digits].
  - rewrite Nat.add_0_r. reflexivity.
  - simpl in H. apply andb_true_iff in H as [Hc Hs].
    rewrite (digit_value_ascii c Hc), (IH Hs). cbn [fold_left length].
    rewrite Nat.add_succ_r. reflexivity.
Qed.

(** [int] reads a string of digits as the number it denotes, when the
    digits are within the limit. *)
Lemma int_of_str_numeral (s : str) :
  is_numeral s = true ->
  digits_allowed max_str_digits (length s) = true ->
  Py.int_of_str unicode_decimal max_str_digits s = Some (numeral_value s).
Proof.
  destruct s as [|c s]; [discriminate|]. unfold is_numeral. intros H Hd.
  pose proof H as H'. simpl in H'. apply andb_true_iff in H' as [Hc Hs].
  pose proof Hc as Hr. unfold is_ascii_digit, between in Hr.
  apply andb_true_iff in Hr as [H1 H2]. apply N.leb_le in H1, H2.
  unfold digits_allowed in Hd. apply negb_true_iff in Hd.
  unfold Py.int_of_str.
  assert (Hsp : Py.int_isspace c = false).
  { unfold Py.int_isspace, between. destruct (N.ltb_spec c 127); [|lia].
    destruct (N.leb_spec 9 c), (N.leb_spec c 13), (N.eqb_spec c 32);
      simpl; try reflexivity; lia. }
  simpl Py.skip_blanks. rewrite Hsp.
  destruct (N.eqb_spec c 45); [lia|]. destruct (N.eqb_spec c 43); [lia|].
  cbn [Py.scan_digits]. rewrite (digit_value_ascii c Hc).
  rewrite (scan_digits_numeral s Hs).
  change (1 + length s)%nat with (length (c :: s)). rewrite Hd.
  reflexivity.
Qed.

(** How [parse_timestamp] runs on two parts that [int] accepts. *)
Lemma parse_timestamp_two_parts (m s : str) (vm vs : Z) (out : list str) :
  Py.int_of_str unicode_decimal max_str_digits m = Some vm ->
  Py.int_of_str unicode_decimal max_str_digits s = Some vs ->
  parse_timestamp unicode_decimal max_str_digits (m ++ lit ":" ++ s) out
  = (inr (vm * 60 + vs)%Z, out).
Proof.
  intros Hm Hs. change (lit ":" ++ s) with (58 :: s).
  unfold parse_timestamp.
  rewrite (proj2 (contains_In 58 (m ++ 58 :: s)))
    by (apply in_or_app; right; now left).
  rewrite split_on_two by (eapply int_of_str_colon; eassumption).
  unfold map_int, bind, int. rewrite Hm, Hs. reflexivity.
Qed.

(** How it runs on one part that [int] accepts. *)
Lemma parse_timestamp_one_part (s : str) (v : Z) (out : list str) :
  Py.int_of_str unicode_decimal max_str_digits s = Some v ->
  parse_timestamp unicode_decimal max_str_digits s out = (inr v, out).
Proof.
  intros Hs. unfold parse_timestamp.
  rewrite contains_absent by (eapply int_of_str_colon; eassumption).
  unfold int. rewrite Hs. reflexivity.
Qed.

(** C2. [parse_timestamp("2:05")] is 125 and [parse_timestamp("90")] is
    90; for two strings of digits joined by a colon the result is
    minutes times 60 plus seconds, and for a string of digits alone it is
    the number the string denotes, as long as the digits of each number
    are within the interpreter's limit. *)
Theorem parse_timestamp_minutes_seconds :
  (forall out,
      parse_timestamp unicode_decimal max_str_digits (lit "2:05") out
      = (inr 125%Z, out))
  /\ (forall out,
        parse_timestamp unicode_decimal max_str_digits (lit "90") out
        = (inr 90%Z, out))
  /\ (forall m s out,
        is_numeral m = true -> is_numeral s = true ->
        digits_allowed max_str_digits (length m) = true ->
        digits_allowed max_str_digits (length s) = true ->
        parse_timestamp unicode_decimal max_str_digits
          (m ++ lit ":" ++ s) out
        = (inr (numeral_value m * 60 + numeral_value s)%Z, out))
  /\ (forall s out,
        is_numeral s = true ->
        digits_allowed max_str_digits (length s) = true ->
        parse_timestamp unicode_decimal max_str_digits s out
        = (inr (numeral_value s), out)).
Proof.
  split; [|split; [|split]].
  - intros out. reflexivity.
  - intros out. reflexivity.
  - intros m s out Hm Hs Lm Ls.
    apply parse_timestamp_two_parts; apply int_of_str_numeral; assumption.
  - intros s out Hs Ls.
    apply parse_timestamp_one_part, int_of_str_numeral; assumption.
Qed.

(** C10. Whatever integers [int] reads on the two sides of the colon, with
    no bound on the seconds and with either sign, the result is the first
    times 60 plus the second; ["1:90"] gives 150. *)
Theorem parse_timestamp_no_range_check :
  (forall m s vm vs out,
      Py.int_of_str unicode_decimal max_str_digits m = Some vm ->
      Py.int_of_str unicode_decimal max_str_digits s = Some vs ->
      parse_timestamp unicode_decimal max_str_digits (m ++ lit ":" ++ s) out
      = (inr (vm * 60 + vs)%Z, out))
  /\ (forall out,
        parse_timestamp unicode_decimal max_str_digits (lit "1:90") out
        = (inr 150%Z, out)).
Proof.
  split.
  - intros. apply parse_timestamp_two_parts; assumption.
  - intros out. reflexivity.
Qed.

End IntFacts.

Lemma parse_timestamp_minutes_seconds_witness :
  is_numeral (lit "12") = true /\ is_numeral (lit "34") = true
  /\ digits_allowed default_max_str_digits (length (lit "12")) = true
  /\ digits_allowed default_max_str_digits (length (lit "34")) = true
  /\ parse_timestamp ascii_digits_only default_max_str_digits
       (lit "12:34") []
     = (inr 754%Z, []).
Proof.
  repeat (split; [reflexivity|]).
  destruct (parse_timestamp_minutes_seconds ascii_digits_only
              default_max_str_digits) as (_ & _ & Hms & _).
  exact (Hms (lit "12") (lit "34") [] eq_refl eq_refl eq_refl eq_refl).
Defined.

(** Under the limit interpreters start with, a numeral of 4301 digits is
    numeric and is refused, alone and as the seconds of a timestamp. *)
Lemma parse_timestamp_long_numeral_raises :
  is_numeral (repeat 48 4301) = true
  /\ parse_timestamp ascii_digits_only default_max_str_digits
       (repeat 48 4301) []
     = (inl ValueError, [])
  /\ parse_timestamp ascii_digits_only default_max_str_digits
       (lit "2" ++ lit ":" ++ repeat 48 4301) []
     = (inl ValueError, []).
Proof. vm_compute. repeat split. Qed.

Lemma parse_timestamp_no_range_check_witness :
  Py.int_of_str ascii_digits_only default_max_str_digits (lit "-2")
  = Some (-2)%Z
  /\ Py.int_of_str ascii_digits_only default_max_str_digits (lit " 75")
     = Some 75%Z
  /\ parse_timestamp ascii_digits_only default_max_str_digits
       (lit "-2: 75") []
     = (inr (-45)%Z, []).
Proof.
  split; [reflexivity|]. split; [reflexivity|].
  exact (proj1 (parse_timestamp_no_range_check ascii_digits_only
                  default_max_str_digits)
           (lit "-2") (lit " 75") (-2)%Z 75%Z [] eq_refl eq_refl).
Defined.

(** ** The sequence matcher *)

Section LongestMatch.

Lemma common_prefix_spec (x y : str) :
  firstn (Difflib.common_prefix x y) x = firstn (Difflib.common_prefix x y) y
  /\ (Difflib.common_prefix x y <= length x)%nat
  /\ (Difflib.common_prefix x y <= length y)%nat.
Proof.
  revert y. induction x as [|c x IH]; intros [|d y]; simpl;
    try (repeat split; lia).
  destruct (N.eqb_spec c d) as [->|_]; simpl; [|repeat split; lia].
  destruct (IH y) as (E & Hx & Hy). rewrite E. repeat split; lia.
Qed.

Lemma skipn_cons_tail {A} (j : nat) (l t : list A) (y : A) :
  skipn j l = y :: t -> skipn (S j) l = t /\ (j < length l)%nat.
Proof.
  revert l. induction j as [|j IH]; intros [|x l] H; simpl in *;
    try discriminate.
  - injection H as _ <-. split; [reflexivity | lia].
  - destruct (IH l H) as [E Hlt]. split; [exact E | lia].
Qed.

Variables a0 b0 : str.

Lemma scan_b_valid (i : nat) :
  (i <= length a0)%nat ->
  forall b j best,
    b = skipn j b0 -> valid_block a0 b0 best ->
    valid_block a0 b0 (Difflib.scan_b (skipn i a0) b i j best).
Proof.
  intros Hi. induction b as [|y b IH]; intros j best Hb Hbest; simpl.
  - exact Hbest.
  - symmetry in Hb. destruct (skipn_cons_tail _ _ _ _ Hb) as [Hb' Hj].
    apply IH; [symmetry; exact Hb'|].
    destruct (Difflib.size best <? _)%nat; [|exact Hbest].
    destruct (common_prefix_spec (skipn i a0) (y :: b)) as (E & Hx & Hy).
    unfold valid_block. rewrite Hb. split; [exact E|].
    rewrite length_skipn in Hx.
    assert (length (y :: b) = length b0 - j)%nat
      by (rewrite <- Hb; apply length_skipn).
    lia.
Qed.

Lemma scan_a_valid :
  forall a i best,
    a = skipn i a0 -> valid_block a0 b0 best ->
    valid_block a0 b0 (Difflib.scan_a a b0 i best).
Proof.
  induction a as [|x a IH]; intros i best Ha Hbest; simpl.
  - exact Hbest.
  - symmetry in Ha. destruct (skipn_cons_tail _ _ _ _ Ha) as [Ha' Hi].
    apply IH; [symmetry; exact Ha'|].
    rewrite <- Ha. apply scan_b_valid; [lia | reflexivity | exact Hbest].
Qed.

(** The block [find_longest_match] returns is a common block. *)
Lemma find_longest_match_valid :
  valid_block a0 b0 (Difflib.find_longest_match a0 b0).
Proof.
  apply scan_a_valid; [reflexivity|]. simpl. repeat split; lia.
Qed.

End LongestMatch.

Section MatchCount.

Lemma split_around {A} (l : list A) (i k : nat) :
  l = firstn i l ++ firstn k (skipn i l) ++ skipn (i + k) l.
Proof.
  rewrite <- (firstn_skipn i l) at 1. f_equal.
  rewrite <- (firstn_skipn k (skipn i l)) at 1. f_equal.
  rewrite skipn_skipn. f_equal. lia.
Qed.

Lemma count_if_app (f : char -> bool) (x y : str) :
  count_if f (x ++ y) = (count_if f x + count_if f y)%nat.
Proof. unfold count_if. rewrite filter_app, length_app. reflexivity. Qed.

Lemma count_if_around (f : char -> bool) (l : str) (i k : nat) :
  count_if f l
  = (count_if f (firstn i l) + count_if f (firstn k (skipn i l))
     + count_if f (skipn (i + k) l))%nat.
Proof.
  rewrite (split_around l i k) at 1. rewrite !count_if_app. lia.
Qed.

Lemma Forall_around {A} (P : A -> Prop) (l : list A) (i k : nat) :
  Forall P l ->
  Forall P (firstn i l) /\ Forall P (firstn k (skipn i l))
  /\ Forall P (skipn (i + k) l).
Proof.
  intros H. rewrite (split_around l i k) in H.
  apply Forall_app in H as [H1 H]. apply Forall_app in H as [H2 H3].
  auto.
Qed.

Variables P R : char -> bool.

Lemma covered_length (s : str) :
  covered P R s -> (length s <= count_if P s + count_if R s)%nat.
Proof.
  unfold count_if. induction 1 as [|c s Hc _ IH]; simpl; [lia|].
  destruct Hc as [-> | ->]; destruct (P c), (R c); simpl; lia.
Qed.

(** A matched pair of characters is charged to the second sequence when
    the character satisfies [P] and to the first one otherwise. *)
Lemma matches_fuel_bound (fuel : nat) :
  forall a b,
    covered P R b ->
    (Difflib.matches_fuel fuel a b <= count_if P b + count_if R a)%nat.
Proof.
  induction fuel as [|fuel IH]; intros a b Hb; simpl; [lia|].
  pose proof (find_longest_match_valid a b) as Hv.
  destruct (Difflib.find_longest_match a b) as [[i j] k].
  destruct Hv as (Hblk & Hi & Hj).
  destruct (k =? 0)%nat; [lia|].
  destruct (Forall_around _ b j k Hb) as (Hl & Hm & Hr).
  pose proof (covered_length _ Hm) as Hk.
  rewrite length_firstn, length_skipn in Hk.
  rewrite (count_if_around P b j k), (count_if_around R a i k).
  rewrite Hblk.
  pose proof (IH (firstn i a) (firstn j b) Hl).
  pose proof (IH (skipn (i + k) a) (skipn (j + k) b) Hr).
  destruct (_ && _); destruct (_ && _); lia.
Qed.

End MatchCount.

(** The fuel given to [matches_fuel] is never exhausted: any two amounts
    above the length of the first sequence give the same count. *)
Lemma matches_fuel_stable (f1 : nat) :
  forall f2 a b,
    (length a < f1)%nat -> (length a < f2)%nat ->
    Difflib.matches_fuel f1 a b = Difflib.matches_fuel f2 a b.
Proof.
  induction f1 as [|f1 IH]; intros [|f2] a b H1 H2; try lia. simpl.
  pose proof (find_longest_match_valid a b) as Hv.
  destruct (Difflib.find_longest_match a b) as [[i j] k].
  destruct Hv as (_ & Hi & _).
  destruct (Nat.eqb_spec k 0); [reflexivity|].
  rewrite (IH f2 (firstn i a)) by (rewrite length_firstn; lia).
  rewrite (IH f2 (skipn (i + k) a)) by (rewrite length_skipn; lia).
  reflexivity.
Qed.

(** The recursion of [get_matching_blocks], on [matches] itself. *)
Lemma matches_unfold (a b : str) :
  Difflib.matches a b
  = let '(i, j, k) := Difflib.find_longest_match a b in
    if (k =? 0)%nat then O
    else
      (k
       + (if (0 <? i)%nat && (0 <? j)%nat
          then Difflib.matches (firstn i a) (firstn j b) else O)
       + (if (i + k <? length a)%nat && (j + k <? length b)%nat
          then Difflib.matches (skipn (i + k) a) (skipn (j + k) b)
          else O))%nat.
Proof.
  unfold Difflib.matches at 1. simpl.
  pose proof (find_longest_match_valid a b) as Hv.
  destruct (Difflib.find_longest_match a b) as [[i j] k].
  destruct Hv as (_ & Hi & _).
  destruct (Nat.eqb_spec k 0); [reflexivity|].
  unfold Difflib.matches.
  rewrite (matches_fuel_stable (length a) (S (length (firstn i a))))
    by (rewrite ?length_firstn; lia).
  rewrite (matches_fuel_stable (length a) (S (length (skipn (i + k) a))))
    by (rewrite ?length_skipn; lia).
  reflexivity.
Qed.

Lemma Qgtb_lt (x y : Q) : Qgtb x y = true <-> (y < x)%Q.
Proof.
  unfold Qgtb. rewrite Qgt_alt.
  destruct (x ?= y)%Q; split; intros H; try reflexivity; discriminate.
Qed.

(** Against a non-empty pattern the test [ratio() > 0.6] is
    [10 * matches > 3 * (len(text) + len(pattern))]. *)
Lemma fuzzy_match_iff (text pattern : str) :
  pattern <> [] ->
  fuzzy_match text pattern = true
  <-> (3 * (length text + length pattern)
       < 10 * Difflib.matches text pattern)%nat.
Proof.
  intros Hne. unfold fuzzy_match. rewrite Qgtb_lt. unfold Difflib.ratio.
  destruct (length text + length pattern)%nat as [|n] eqn:E.
  - destruct pattern; [congruence | simpl in E; lia].
  - unfold Qlt. cbn [Qnum Qden].
    rewrite <- Pos.of_nat_succ, Zpos_P_of_succ_nat. lia.
Qed.

(** ** The Fuzzy Kill-Line Matcher *)

(** A line has at most one token more than it has blanks. *)
Lemma split_from_length (s cur : str) :
  (length (Py.split_from cur s) <= S (count_if Py.isspace s))%nat.
Proof.
  unfold count_if. revert cur. induction s as [|c s IH]; intros cur; simpl.
  - destruct cur; simpl; lia.
  - destruct (Py.isspace c); simpl.
    + destruct cur; simpl; [specialize (IH []) | specialize (IH [])]; lia.
    + apply IH.
Qed.

(** A blank, a letter of ["SAV"] and a letter of ["ustom"] are three
    different things. *)
Lemma classes_disjoint (c : char) :
  (Nat.b2n (Py.isspace c) + Nat.b2n (in_SAV c) + Nat.b2n (in_ustom c) <= 1)%nat.
Proof.
  destruct (in_SAV c) eqn:E1.
  - unfold in_SAV in E1. rewrite !orb_true_iff, !N.eqb_eq in E1.
    destruct E1 as [[-> | ->] | ->]; vm_compute; lia.
  - destruct (in_ustom c) eqn:E2; [|destruct (Py.isspace c); simpl; lia].
    unfold in_ustom in E2. rewrite !orb_true_iff, !N.eqb_eq in E2.
    destruct E2 as [[[[-> | ->] | ->] | ->] | ->]; vm_compute; lia.
Qed.

Lemma classes_count (s : str) :
  (count_if Py.isspace s + count_if in_SAV s + count_if in_ustom s
   <= length s)%nat.
Proof.
  unfold count_if. induction s as [|c s IH]; simpl; [lia|].
  pose proof (classes_disjoint c).
  destruct (Py.isspace c), (in_SAV c), (in_ustom c); simpl in *; lia.
Qed.

Lemma covered_check (P R : char -> bool) (s : str) :
  forallb (fun c => P c || R c) s = true -> covered P R s.
Proof.
  intros H. apply Forall_forall. intros c Hc.
  rewrite forallb_forall in H. apply orb_true_iff, H, Hc.
Qed.

Lemma count_if_never (s : str) : count_if (fun _ => false) s = O.
Proof. unfold count_if. induction s; simpl; auto. Qed.

Lemma matches_SCAV_le (text : str) :
  (Difflib.matches text (lit "SCAV") <= 4)%nat
  /\ (Difflib.matches text (lit "SCAV") <= 1 + count_if in_SAV text)%nat.
Proof.
  split.
  - pose proof (matches_fuel_bound (fun _ => true) (fun _ => false)
                  (S (length text)) text (lit "SCAV")) as H.
    unfold Difflib.matches.
    rewrite count_if_never in H. apply H, covered_check. reflexivity.
  - apply (matches_fuel_bound is_C in_SAV), covered_check. reflexivity.
Qed.

Lemma matches_Customs_le (text : str) :
  (Difflib.matches text (lit "Customs") <= 1 + count_if in_ustom text)%nat.
Proof.
  apply (matches_fuel_bound is_C in_ustom), covered_check. reflexivity.
Qed.

(** A line that is similar enough to ["SCAV"] has at most 9 characters. *)
Lemma fuzzy_match_SCAV_short (text : str) :
  fuzzy_match text (lit "SCAV") = true -> (length text <= 9)%nat.
Proof.
  intros H. apply fuzzy_match_iff in H; [|discriminate].
  destruct (matches_SCAV_le text) as [H4 _].
  change (length (lit "SCAV")) with 4%nat in H. lia.
Qed.

(** No line passes both tests and splits into five tokens or more: the
    tokens and the blanks between them leave too few characters for the
    letters the two ratios ask for. *)
Lemma both_match_few_tokens (cleaned : str) :
  both_match cleaned = true -> (length (Py.split cleaned) < 5)%nat.
Proof.
  unfold both_match. intros H. apply andb_true_iff in H as [H1 H2].
  apply fuzzy_match_iff in H1; [|discriminate].
  apply fuzzy_match_iff in H2; [|discriminate].
  change (length (lit "Customs")) with 7%nat in H1.
  change (length (lit "SCAV")) with 4%nat in H2.
  destruct (matches_SCAV_le cleaned) as [H4 Hx].
  pose proof (matches_Customs_le cleaned) as Hy.
  pose proof (classes_count cleaned) as Hc.
  pose proof (split_from_length cleaned []) as Hs.
  fold (Py.split cleaned) in Hs. lia.
Qed.

Lemma record_of_line_none (line : str) : record_of_line line = None.
Proof.
  unfold record_of_line.
  destruct (both_match (clean_ocr_line line)) eqn:E; [|reflexivity].
  apply both_match_few_tokens in E.
  destruct (Nat.leb_spec 5 (length (Py.split (clean_ocr_line line))));
    [lia | reflexivity].
Qed.

(** ** The loop of [parse_kill_list] *)

(** Under the length test the three subscripts are in range. *)
Lemma index_in_range {A} (l : list A) (i : nat) (d : A) (out : list str) :
  (i < length l)%nat -> index l i out = (inr (nth i l d), out).
Proof.
  intros H. unfold index. rewrite (nth_error_nth' l d H). reflexivity.
Qed.

(** One round of the loop: what it appends and what it prints. *)
Lemma kill_line_run (kill_data : list str) (line : str) (out : list str) :
  kill_line kill_data line out
  = (inr (kill_data ++ match record_of_line line with
                       | Some r => [r]
                       | None => []
                       end),
     out ++ (if both_match (clean_ocr_line line)
             then [debug_line (clean_ocr_line line)] else [])).
Proof.
  unfold kill_line, record_of_line. fold (both_match (clean_ocr_line line)).
  destruct (both_match (clean_ocr_line line)); cbn [andb].
  - unfold bind at 1, print.
    destruct (Nat.leb_spec 5 (length (Py.split (clean_ocr_line line))))
      as [H|H].
    + unfold bind.
      set (parts := Py.split (clean_ocr_line line)) in *.
      rewrite (index_in_range parts 1 [] _) by lia.
      rewrite (index_in_range parts 2 [] _) by lia.
      rewrite (index_in_range parts 4 [] _) by lia.
      reflexivity.
    + unfold ret. rewrite app_nil_r. reflexivity.
  - unfold ret. rewrite !app_nil_r. reflexivity.
Qed.

Lemma for_each_kill_line (lines : list str) :
  forall kill_data out,
    for_each lines kill_line kill_data out
    = (inr (kill_data ++ records_of lines), out ++ debug_lines lines).
Proof.
  induction lines as [|line lines IH]; intros kill_data out; simpl.
  - unfold ret. rewrite !app_nil_r. reflexivity.
  - unfold bind. rewrite kill_line_run, IH, <- !app_assoc. reflexivity.
Qed.

Lemma parse_kill_list_run (ocr_text : str) (out : list str) :
  parse_kill_list ocr_text out
  = (inr (records_of (Py.splitlines ocr_text)),
     out ++ debug_lines (Py.splitlines ocr_text)).
Proof. unfold parse_kill_list. apply for_each_kill_line. Qed.

Lemma records_of_nil (lines : list str) : records_of lines = [].
Proof.
  unfold records_of. induction lines as [|line lines IH]; simpl; [reflexivity|].
  rewrite record_of_line_none. exact IH.
Qed.

(** A line that fails the test changes nothing. *)
Lemma kill_line_rejected (kill_data : list str) (line : str) (out : list str) :
  both_match (clean_ocr_line line) = false ->
  kill_line kill_data line out = (inr kill_data, out).
Proof.
  intros H. unfold kill_line. fold (both_match (clean_ocr_line line)).
  rewrite H. reflexivity.
Qed.

Lemma for_each_filter_both (lines : list str) :
  forall kill_data out,
    for_each lines kill_line kill_data out
    = for_each
        (filter (fun line => both_match (clean_ocr_line line)) lines)
        kill_line kill_data out.
Proof.
  induction lines as [|line lines IH]; intros kill_data out; simpl;
    [reflexivity|].
  destruct (both_match (clean_ocr_line line)) eqn:E; simpl; unfold bind.
  - destruct (kill_line kill_data line out) as [[e|kd] out'];
      [reflexivity | apply IH].
  - rewrite kill_line_rejected by exact E. apply IH.
Qed.

(** The test of the script lets no line of five tokens or more through:
    whatever the text, [parse_kill_list] returns the empty list.  On the
    line of the specification's own scenario it returns nothing and prints
    nothing. *)
Lemma parse_kill_list_never_emits :
  (forall ocr_text out, fst (parse_kill_list ocr_text out) = inr [])
  /\ parse_kill_list (lit "12:34 Customs PMC SCAV AK-74") [] = (inr [], []).
Proof.
  split.
  - intros ocr_text out. rewrite parse_kill_list_run, records_of_nil.
    reflexivity.
  - vm_compute. reflexivity.
Qed.






(** C3. A line has an effect on the loop (a message, a record) only if the
    similarity ratio of its cleaned form is above 0.6 against ["Customs"]
    and against ["SCAV"]; the lines that fail the test can be removed from
    the text without changing what [parse_kill_list] does. *)
Theorem kill_line_only_if_both_ratios :
  (forall kill_data line out,
      kill_line kill_data line out <> (inr kill_data, out) ->
      (6 # 10 < Difflib.ratio (clean_ocr_line line) (lit "Customs"))%Q
      /\ (6 # 10 < Difflib.ratio (clean_ocr_line line) (lit "SCAV"))%Q)
  /\ (forall ocr_text out,
        parse_kill_list ocr_text out
        = for_each
            (filter (fun line => both_match (clean_ocr_line line))
               (Py.splitlines ocr_text))
            kill_line [] out).
Proof.
  split.
  - intros kill_data line out H.
    destruct (both_match (clean_ocr_line line)) eqn:E.
    + unfold both_match, fuzzy_match in E.
      apply andb_true_iff in E as [E1 E2].
      split; apply Qgtb_lt; assumption.
    + exfalso. apply H, kill_line_rejected, E.
  - intros ocr_text out. unfold parse_kill_list. apply for_each_filter_both.
Qed.

Lemma kill_line_only_if_both_ratios_witness :
  kill_line [] (lit "SCustoAV") [] <> (inr [], [])
  /\ (6 # 10
      < Difflib.ratio (clean_ocr_line (lit "SCustoAV")) (lit "Customs"))%Q
  /\ (6 # 10
      < Difflib.ratio (clean_ocr_line (lit "SCustoAV")) (lit "SCAV"))%Q.
Proof.
  assert (H : kill_line [] (lit "SCustoAV") [] <> (inr [], []))
    by (intros E; vm_compute in E; discriminate E).
  split; [exact H|].
  exact (proj1 kill_line_only_if_both_ratios [] (lit "SCustoAV") [] H).
Defined.

(** C4. A line that passes both tests and splits into fewer than five
    tokens adds no record and raises nothing: the round ends normally with
    the list unchanged, after the message of the match. *)
Theorem kill_line_few_tokens (kill_data : list str) (line : str)
  (out : list str) :
  fuzzy_match (clean_ocr_line line) (lit "Customs") = true ->
  fuzzy_match (clean_ocr_line line) (lit "SCAV") = true ->
  (length (Py.split (clean_ocr_line line)) < 5)%nat ->
  kill_line kill_data line out
  = (inr kill_data, out ++ [debug_line (clean_ocr_line line)]).
Proof.
  intros H1 H2 H. unfold kill_line. rewrite H1, H2. cbn [andb].
  unfold bind at 1, print.
  destruct (Nat.leb_spec 5 (length (Py.split (clean_ocr_line line))));
    [lia | reflexivity].
Qed.

Lemma kill_line_few_tokens_witness :
  fuzzy_match (clean_ocr_line (lit " SCustoAV ")) (lit "Customs") = true
  /\ fuzzy_match (clean_ocr_line (lit " SCustoAV ")) (lit "SCAV") = true
  /\ (length (Py.split (clean_ocr_line (lit " SCustoAV "))) < 5)%nat
  /\ kill_line [lit "kept"] (lit " SCustoAV ") []
     = (inr [lit "kept"], [lit "[DEBUG] Matched Kill Line: SCustoAV"]).
Proof.
  assert (H : (length (Py.split (clean_ocr_line (lit " SCustoAV "))) < 5)%nat)
    by (vm_compute; lia).
  repeat (split; [first [reflexivity | exact H]|]).
  exact (kill_line_few_tokens [lit "kept"] (lit " SCustoAV ") []
           eq_refl eq_refl H).
Defined.


(** Three lines under a test that lets every line through: the first and
    the third have five tokens or more and give a record each, in that
    order; the second gives none. *)
Example parse_kill_list_with_three_lines :
  parse_kill_list_with accept_all
    (lit "0 1:05 Bob x BEAR AK 74" ++ [10] ++ lit "too short" ++ [10]
     ++ lit "1 2:10 Al y USEC") []
  = (inr [lit "Time: 1:05 | Name: Bob | Faction: BEAR | Weapon: AK 74";
          lit "Time: 2:10 | Name: Al | Faction: USEC | Weapon: "],
     [lit "[DEBUG] Matched Kill Line: 0 1:05 Bob x BEAR AK 74";
      lit "[DEBUG] Matched Kill Line: too short";
      lit "[DEBUG] Matched Kill Line: 1 2:10 Al y USEC"]).
Proof. vm_compute. reflexivity. Qed.

(** C9. [parse_kill_list] returns a list on every string: no subscript is
    out of range, because each is taken under the test on the number of
    tokens. *)
Theorem parse_kill_list_total (ocr_text : str) (out : list str) :
  exists kill_data out',
    parse_kill_list ocr_text out = (inr kill_data, out').
Proof. rewrite parse_kill_list_run. eauto. Qed.

(* ===================================================================== *)
(** * Part III. Further properties of the script                          *)
(* ===================================================================== *)

(** ** More on the Timestamp Parser *)

Section SplitJoin.

Variable sep : char.

Lemma split_on_from_cons (cur s : str) :
  exists p ps, Py.split_on_from sep cur s = p :: ps.
Proof.
  revert cur. induction s as [|c s IH]; intros cur; simpl; eauto.
  destruct (c =? sep); eauto.
Qed.

(** Joining the parts with the separator gives the string back. *)
Lemma join_split_on_from (s cur : str) :
  Py.join [sep] (Py.split_on_from sep cur s) = rev cur ++ s.
Proof.
  revert cur. induction s as [|c s IH]; intros cur; simpl.
  - rewrite app_nil_r. reflexivity.
  - destruct (N.eqb_spec c sep) as [->|_].
    + specialize (IH []). destruct (split_on_from_cons [] s) as (p & ps & E).
      rewrite E in *.
      change (Py.join [sep] (rev cur :: p :: ps))
        with (rev cur ++ [sep] ++ Py.join [sep] (p :: ps)).
      rewrite IH. reflexivity.
    + rewrite IH. simpl. rewrite <- app_assoc. reflexivity.
Qed.

(** There is one part more than there are separators. *)
Lemma split_on_from_length (s cur : str) :
  length (Py.split_on_from sep cur s) = S (count_if (N.eqb sep) s).
Proof.
  unfold count_if. revert cur.
  induction s as [|c s IH]; intros cur; simpl; [reflexivity|].
  rewrite (N.eqb_sym sep c).
  destruct (c =? sep); simpl; rewrite IH; reflexivity.
Qed.

End SplitJoin.

Section TimestampMore.

Variable unicode_decimal : char -> option N.
Variable max_str_digits : nat.

(** [map(int, parts)] prints nothing and either raises [ValueError] or
    returns what [int] reads in each part. *)
Lemma map_int_run (parts : list str) (out : list str) :
  map_int unicode_decimal max_str_digits parts out = (inl ValueError, out)
  \/ exists vals,
       map_int unicode_decimal max_str_digits parts out = (inr vals, out)
       /\ Forall2
            (fun p v =>
               Py.int_of_str unicode_decimal max_str_digits p = Some v)
            parts vals.
Proof.
  induction parts as [|p ps IH]; simpl.
  - right. exists []. split; [reflexivity | constructor].
  - unfold bind, int.
    destruct (Py.int_of_str unicode_decimal max_str_digits p) as [z|] eqn:Ep;
      [|left; reflexivity].
    cbv beta iota delta [ret].
    destruct IH as [IH | (vals & IH & HF)]; rewrite IH; [left; reflexivity|].
    right. exists (z :: vals). split; [reflexivity | constructor; assumption].
Qed.

Lemma colons_contains (t : str) :
  Py.contains 58 t = true <-> (1 <= colons t)%nat.
Proof.
  unfold colons, count_if, Py.contains.
  induction t as [|c t IH]; cbn [existsb filter length].
  - split; [discriminate | intros; exfalso; lia].
  - destruct (58 =? c); cbn [orb length]; [|exact IH].
    split; [lia | reflexivity].
Qed.

(** X1. [parse_timestamp] returns [v] exactly when [int] reads the whole
    input as [v], or the input is two parts around its only colon, [int]
    reads both, and [v] is the first times 60 plus the second. *)
Theorem parse_timestamp_returns_iff (t : str) (v : Z) (out : list str) :
  parse_timestamp unicode_decimal max_str_digits t out = (inr v, out)
  <-> Py.int_of_str unicode_decimal max_str_digits t = Some v
      \/ exists m s vm vs,
           t = m ++ lit ":" ++ s
           /\ Py.int_of_str unicode_decimal max_str_digits m = Some vm
           /\ Py.int_of_str unicode_decimal max_str_digits s = Some vs
           /\ v = (vm * 60 + vs)%Z.
Proof.
  split.
  - unfold parse_timestamp.
    destruct (Py.contains 58 t) eqn:Ec.
    + unfold bind.
      destruct (map_int_run (Py.split_on 58 t) out) as [E | (vals & E & HF)];
        rewrite E; [discriminate|].
      destruct vals as [|vm [|vs [|x vals]]]; try discriminate.
      intros H. injection H as <-. right.
      inversion HF as [|m v1 ps vs1 Hm HF1 Eparts]; subst.
      inversion HF1 as [|s v2 ps2 vs2 Hs HF2]; subst.
      inversion HF2; subst.
      exists m, s, vm, vs. repeat split; try assumption.
      pose proof (join_split_on_from 58 t []) as J.
      unfold Py.split_on in Eparts. rewrite <- Eparts in J. exact (eq_sym J).
    + unfold int.
      destruct (Py.int_of_str unicode_decimal max_str_digits t) as [z|];
        [|discriminate].
      intros H. injection H as <-. left. reflexivity.
  - intros [H | (m & s & vm & vs & -> & Hm & Hs & ->)].
    + apply parse_timestamp_one_part, H.
    + apply parse_timestamp_two_parts; assumption.
Qed.

(** X2. [parse_timestamp] prints nothing, and when it does not return an
    integer the exception is [ValueError]. *)
Theorem parse_timestamp_value_error_only (t : str) (out : list str) :
  parse_timestamp unicode_decimal max_str_digits t out = (inl ValueError, out)
  \/ exists v,
       parse_timestamp unicode_decimal max_str_digits t out = (inr v, out).
Proof.
  unfold parse_timestamp. destruct (Py.contains 58 t).
  - unfold bind.
    destruct (map_int_run (Py.split_on 58 t) out) as [E | (vals & E & _)];
      rewrite E; [left; reflexivity|].
    destruct vals as [|vm [|vs [|x vals]]];
      try (left; reflexivity). right. eexists. reflexivity.
  - unfold int. destruct (Py.int_of_str unicode_decimal max_str_digits t);
      [right; eexists|left]; reflexivity.
Qed.

(** X3. An input with two colons or more, such as hours, minutes and
    seconds, raises [ValueError]. *)
Theorem parse_timestamp_two_colons (t : str) (out : list str) :
  (2 <= colons t)%nat ->
  parse_timestamp unicode_decimal max_str_digits t out = (inl ValueError, out).
Proof.
  intros H. unfold parse_timestamp.
  rewrite (proj2 (colons_contains t)) by lia.
  unfold bind.
  destruct (map_int_run (Py.split_on 58 t) out) as [E | (vals & E & HF)];
    rewrite E; [reflexivity|].
  apply Forall2_length in HF. unfold Py.split_on in HF.
  rewrite split_on_from_length in HF. fold (colons t) in HF.
  destruct vals as [|vm [|vs [|x vals]]]; simpl in HF; try reflexivity; lia.
Qed.

End TimestampMore.

Lemma parse_timestamp_two_colons_witness :
  (2 <= colons (lit "1:02:03"))%nat
  /\ parse_timestamp ascii_digits_only default_max_str_digits (lit "1:02:03") []
     = (inl ValueError, []).
Proof.
  assert (H : (2 <= colons (lit "1:02:03"))%nat) by (vm_compute; lia).
  split; [exact H|].
  exact (parse_timestamp_two_colons ascii_digits_only
           default_max_str_digits (lit "1:02:03") [] H).
Defined.

Section IntPadding.

Variable unicode_decimal : char -> option N.
Variable max_str_digits : nat.

Lemma ascii_blank_range (c : char) :
  ascii_blank c = true -> 9 <= c <= 13 \/ c = 32.
Proof.
  unfold ascii_blank, between.
  rewrite orb_true_iff, andb_true_iff, !N.leb_le, N.eqb_eq. tauto.
Qed.

Lemma ascii_blank_int_isspace (c : char) :
  ascii_blank c = true -> Py.int_isspace c = true.
Proof.
  intros H. pose proof (ascii_blank_range c H) as R. unfold Py.int_isspace.
  destruct (N.ltb_spec c 127); [exact H | lia].
Qed.

Lemma ascii_blank_no_digit (c : char) :
  ascii_blank c = true ->
  Py.digit_value unicode_decimal c = None /\ c <> 95.
Proof.
  intros H. apply ascii_blank_range in H. unfold Py.digit_value, between.
  destruct (N.ltb_spec c 127); [|lia].
  destruct (N.leb_spec 48 c); simpl; [lia|]. split; [reflexivity | lia].
Qed.

Lemma ascii_digit_range (c : char) : is_ascii_digit c = true -> 48 <= c <= 57.
Proof.
  unfold is_ascii_digit, between. rewrite andb_true_iff, !N.leb_le. tauto.
Qed.

Lemma skip_blanks_app (w r : str) :
  forallb ascii_blank w = true ->
  Py.skip_blanks (w ++ r) = Py.skip_blanks r.
Proof.
  induction w as [|c w IH]; simpl; [reflexivity|].
  intros H. apply andb_true_iff in H as [Hc Hw].
  rewrite (ascii_blank_int_isspace c Hc). exact (IH Hw).
Qed.

(** The digits are read up to the first blank. *)
Lemma scan_digits_then_blanks (ds w : str) :
  forallb is_ascii_digit ds = true -> forallb ascii_blank w = true ->
  forall acc n,
    Py.scan_digits unicode_decimal Py.AfterDigit acc n (ds ++ w)
    = Some (fold_left (fun a c => 10 * a + Z.of_N (c - 48))%Z ds acc,
            (n + length ds)%nat, w).
Proof.
  intros Hds Hw. induction ds as [|c ds IH]; intros acc n.
  - cbn [app fold_left length]. rewrite Nat.add_0_r.
    destruct w as [|c w]; [reflexivity|].
    simpl in Hw. apply andb_true_iff in Hw as [Hc _].
    destruct (ascii_blank_no_digit c Hc) as [Ed Hu].
    cbn [Py.scan_digits]. rewrite Ed.
    destruct (N.eqb_spec c 95); [contradiction | reflexivity].
  - simpl in Hds. apply andb_true_iff in Hds as [Hc Hds].
    cbn [app fold_left length Py.scan_digits].
    rewrite (digit_value_ascii unicode_decimal c Hc), (IH Hds).
    rewrite Nat.add_succ_r. reflexivity.
Qed.

(** [int] reads a digit string between ASCII blanks, after an optional
    sign, when its digits are within the limit. *)
Lemma int_of_str_signed_padded (w1 sign m w2 : str) (negative : bool) :
  forallb ascii_blank w1 = true -> forallb ascii_blank w2 = true ->
  is_numeral m = true ->
  digits_allowed max_str_digits (length m) = true ->
  (sign = [] /\ negative = false) \/ (sign = [43] /\ negative = false)
  \/ (sign = [45] /\ negative = true) ->
  Py.int_of_str unicode_decimal max_str_digits (w1 ++ sign ++ m ++ w2)
  = Some (if negative then - numeral_value m else numeral_value m)%Z.
Proof.
  intros H1 H2 Hm Hd Hsign. unfold Py.int_of_str.
  rewrite skip_blanks_app by exact H1.
  destruct m as [|c m]; [discriminate|]. unfold is_numeral in Hm.
  pose proof Hm as Hm'. cbn [forallb] in Hm'.
  apply andb_true_iff in Hm' as [Hc Hds].
  pose proof (ascii_digit_range c Hc) as Rc.
  unfold digits_allowed in Hd. apply negb_true_iff in Hd.
  assert (Hsp : Py.int_isspace c = false).
  { unfold Py.int_isspace, between. destruct (N.ltb_spec c 127); [|lia].
    destruct (N.leb_spec 9 c), (N.leb_spec c 13), (N.eqb_spec c 32);
      simpl; try reflexivity; lia. }
  assert (Hscan :
    Py.scan_digits unicode_decimal Py.AtStart 0%Z O (c :: m ++ w2)
    = Some (numeral_value (c :: m), length (c :: m), w2)).
  { cbn [Py.scan_digits].
    rewrite (digit_value_ascii unicode_decimal c Hc).
    rewrite scan_digits_then_blanks by assumption. reflexivity. }
  assert (Hrest : forallb Py.int_isspace w2 = true).
  { apply forallb_forall. intros x Hx. rewrite forallb_forall in H2.
    apply ascii_blank_int_isspace, H2, Hx. }
  destruct Hsign as [[-> ->] | [[-> ->] | [-> ->]]]; cbn [app Py.skip_blanks].
  - rewrite Hsp. destruct (N.eqb_spec c 45); [lia|].
    destruct (N.eqb_spec c 43); [lia|].
    rewrite Hscan, Hd, Hrest. reflexivity.
  - change (Py.int_isspace 43) with false. cbv iota.
    change (43 =? 45) with false. change (43 =? 43) with true. cbv iota.
    rewrite Hscan, Hd, Hrest. reflexivity.
  - change (Py.int_isspace 45) with false. cbv iota.
    change (45 =? 45) with true. cbv iota.
    rewrite Hscan, Hd, Hrest. reflexivity.
Qed.

(** X4. ASCII blanks before and after the minutes and the seconds are
    ignored, for numbers whose digits are within the interpreter's
    limit. *)
Theorem parse_timestamp_blanks_ignored (w1 m w2 w3 s w4 : str)
  (out : list str) :
  forallb ascii_blank (w1 ++ w2 ++ w3 ++ w4) = true ->
  is_numeral m = true -> is_numeral s = true ->
  digits_allowed max_str_digits (length m) = true ->
  digits_allowed max_str_digits (length s) = true ->
  parse_timestamp unicode_decimal max_str_digits
    ((w1 ++ m ++ w2) ++ lit ":" ++ (w3 ++ s ++ w4)) out
  = (inr (numeral_value m * 60 + numeral_value s)%Z, out).
Proof.
  intros Hw Hm Hs Lm Ls. rewrite !forallb_app, !andb_true_iff in Hw.
  destruct Hw as (H1 & H2 & H3 & H4).
  apply parse_timestamp_two_parts.
  - apply (int_of_str_signed_padded w1 [] m w2 false); auto.
  - apply (int_of_str_signed_padded w3 [] s w4 false); auto.
Qed.

(** X5. A minus sign before the minutes negates the minutes only: the
    seconds are still added (for numbers whose digits are within the
    interpreter's limit). *)
Theorem parse_timestamp_minus_minutes (m s : str) (out : list str) :
  is_numeral m = true -> is_numeral s = true ->
  digits_allowed max_str_digits (length m) = true ->
  digits_allowed max_str_digits (length s) = true ->
  parse_timestamp unicode_decimal max_str_digits
    (lit "-" ++ m ++ lit ":" ++ s) out
  = (inr (numeral_value s - numeral_value m * 60)%Z, out).
Proof.
  intros Hm Hs Lm Ls.
  pose proof (int_of_str_signed_padded [] [45] m [] true
                eq_refl eq_refl Hm Lm) as Em.
  pose proof (int_of_str_signed_padded [] [] s [] false
                eq_refl eq_refl Hs Ls) as Es.
  cbn [app] in Em, Es. rewrite app_nil_r in Em, Es.
  replace (numeral_value s - numeral_value m * 60)%Z
    with (- numeral_value m * 60 + numeral_value s)%Z by lia.
  apply (parse_timestamp_two_parts unicode_decimal max_str_digits
           (45 :: m) s);
    [apply Em | apply Es]; auto.
Qed.

End IntPadding.

Lemma parse_timestamp_blanks_ignored_witness :
  parse_timestamp ascii_digits_only default_max_str_digits
    (lit " 2 : 05 ") []
  = (inr 125%Z, []).
Proof.
  exact (parse_timestamp_blanks_ignored ascii_digits_only
           default_max_str_digits
           (lit " ") (lit "2") (lit " ") (lit " ") (lit "05") (lit " ") []
           eq_refl eq_refl eq_refl eq_refl eq_refl).
Defined.

Lemma parse_timestamp_minus_minutes_witness :
  parse_timestamp ascii_digits_only default_max_str_digits (lit "-1:30") []
  = (inr (-30)%Z, []).
Proof.
  exact (parse_timestamp_minus_minutes ascii_digits_only
           default_max_str_digits
           (lit "1") (lit "30") [] eq_refl eq_refl eq_refl eq_refl).
Defined.

(** ** More on the Line Cleaner *)

Lemma starts_blank_no_leading (s : str) :
  starts_blank s = false <-> no_leading_space s.
Proof. destruct s as [|c s]; simpl; tauto. Qed.

Lemma rstrip_ends_blank (s : str) : ends_blank (Py.rstrip s) = false.
Proof.
  induction s as [|c s IH]; simpl; [reflexivity|].
  destruct (Py.rstrip s) as [|d r].
  - destruct (Py.isspace c) eqn:E; simpl; [reflexivity | exact E].
  - exact IH.
Qed.

Lemma rstrip_fixed (s : str) : ends_blank s = false -> Py.rstrip s = s.
Proof.
  induction s as [|c s IH]; [reflexivity|].
  destruct s as [|d s].
  - simpl. intros ->. reflexivity.
  - intros H. change (ends_blank (d :: s) = false) in H.
    change (Py.rstrip (c :: d :: s))
      with (match Py.rstrip (d :: s) with
            | [] => if Py.isspace c then [] else [c]
            | r => c :: r
            end).
    rewrite (IH H). reflexivity.
Qed.

Lemma strip_edges (s : str) :
  starts_blank (Py.strip s) = false /\ ends_blank (Py.strip s) = false.
Proof.
  unfold Py.strip. split; [|apply rstrip_ends_blank].
  apply starts_blank_no_leading, rstrip_no_leading_space,
    lstrip_no_leading_space.
Qed.

Lemma strip_fixed (s : str) :
  starts_blank s = false -> ends_blank s = false -> Py.strip s = s.
Proof.
  intros H1 H2. unfold Py.strip.
  rewrite lstrip_fixed by (apply starts_blank_no_leading, H1).
  apply rstrip_fixed, H2.
Qed.

Lemma clean_char_spec (c : char) :
  clean_char c = true <-> kept c = true /\ not_OQ c.
Proof.
  unfold clean_char, not_OQ.
  rewrite !andb_true_iff, !negb_true_iff, !N.eqb_neq. tauto.
Qed.

Lemma is_clean_spec (s : str) :
  is_clean s = true
  <-> Forall (fun c => kept c = true /\ not_OQ c) s
      /\ starts_blank s = false /\ ends_blank s = false.
Proof.
  unfold is_clean.
  rewrite !andb_true_iff, !negb_true_iff, forallb_forall, Forall_forall.
  split.
  - intros [[H1 H2] H3]. repeat split; try assumption;
      apply clean_char_spec, H1; assumption.
  - intros [H1 [H2 H3]]. repeat split; try assumption.
    intros c Hc. apply clean_char_spec, H1, Hc.
Qed.

Lemma clean_ocr_line_is_clean (line : str) :
  is_clean (clean_ocr_line line) = true.
Proof.
  apply is_clean_spec. split; [apply clean_ocr_line_chars|].
  rewrite clean_ocr_line_unfold. apply strip_edges.
Qed.

Lemma clean_ocr_line_fixed (s : str) :
  is_clean s = true -> clean_ocr_line s = s.
Proof.
  intros H. apply is_clean_spec in H as (H & Hs & He).
  assert (Hkept : Forall (fun c => kept c = true) s).
  { eapply Forall_impl; [|exact H]. simpl. tauto. }
  assert (Hne : forall x, kept x = false \/ x = 79 \/ x = 81 ->
                          Forall (fun c => c <> x) s).
  { intros x Hx. eapply Forall_impl; [|exact H]. simpl.
    intros c [Hc [HO HQ]] ->. destruct Hx as [Hx|[Hx|Hx]]; congruence. }
  rewrite clean_ocr_line_unfold. unfold replaced.
  change (lit "=") with [61]; change (lit "Q") with [81];
    change (lit "O") with [79]; unfold mojibake_dash.
  rewrite (replace_absent 79) by (apply Hne; auto).
  rewrite (replace_absent 81) by (apply Hne; auto).
  rewrite (replace_absent 0xE2) by (apply Hne; left; reflexivity).
  rewrite (replace_absent 61) by (apply Hne; left; reflexivity).
  rewrite (filter_fixed kept s Hkept). apply strip_fixed; assumption.
Qed.

(** X6. The lines [clean_ocr_line] returns unchanged are exactly the lines
    made of kept characters other than [O] and [Q] that neither start nor
    end with a blank, and every line it returns is one of them. *)
Theorem clean_ocr_line_fixed_points :
  (forall line : str, is_clean (clean_ocr_line line) = true)
  /\ (forall s : str, clean_ocr_line s = s <-> is_clean s = true).
Proof.
  split; [exact clean_ocr_line_is_clean|].
  intros s. split.
  - intros E. rewrite <- E. apply clean_ocr_line_is_clean.
  - apply clean_ocr_line_fixed.
Qed.

(** ** More on the similarity test *)

Lemma common_prefix_refl (a : str) : Difflib.common_prefix a a = length a.
Proof.
  induction a as [|c a IH]; simpl; [reflexivity|].
  rewrite N.eqb_refl, IH. reflexivity.
Qed.

(** A block as long as one of the two remaining sequences is not replaced. *)
Lemma scan_b_keep (ai b : str) (i : nat) :
  forall j best,
    (length ai <= Difflib.size best)%nat
    \/ (length b <= Difflib.size best)%nat ->
    Difflib.scan_b ai b i j best = best.
Proof.
  induction b as [|y b IH]; intros j best H; simpl; [reflexivity|].
  destruct (common_prefix_spec ai (y :: b)) as (_ & Ha & Hb).
  destruct (Nat.ltb_spec (Difflib.size best)
              (Difflib.common_prefix ai (y :: b))) as [Hlt|_].
  - simpl in *. lia.
  - apply IH. simpl in H. lia.
Qed.

Lemma scan_a_keep (a b : str) :
  forall i best,
    (length a <= Difflib.size best)%nat -> Difflib.scan_a a b i best = best.
Proof.
  induction a as [|x a IH]; intros i best H; simpl; [reflexivity|].
  rewrite scan_b_keep by (left; exact H). apply IH. simpl in H. lia.
Qed.

Lemma find_longest_match_self (a : str) :
  Difflib.find_longest_match a a = (O, O, length a).
Proof.
  destruct a as [|x a]; [reflexivity|].
  unfold Difflib.find_longest_match.
  cbn [Difflib.scan_a Difflib.scan_b].
  rewrite common_prefix_refl.
  change (Difflib.size (O, O, O) <? length (x :: a))%nat with true.
  cbv iota.
  rewrite scan_b_keep by (right; simpl; lia).
  apply scan_a_keep. simpl. lia.
Qed.

Lemma matches_self (a : str) : Difflib.matches a a = length a.
Proof.
  rewrite matches_unfold, find_longest_match_self. cbv beta iota zeta.
  destruct (Nat.eqb_spec (length a) 0) as [E|_]; [symmetry; exact E|].
  change (0 <? 0)%nat with false. cbn [Nat.add andb].
  rewrite Nat.ltb_irrefl. cbn [andb]. lia.
Qed.

Lemma matches_le (a b : str) :
  (Difflib.matches a b <= length a)%nat
  /\ (Difflib.matches a b <= length b)%nat.
Proof.
  unfold Difflib.matches. split.
  - pose proof (matches_fuel_bound (fun _ => false) (fun _ => true)
                  (S (length a)) a b) as H.
    rewrite count_if_never in H. unfold count_if in H.
    rewrite filter_fixed in H by (apply Forall_forall; auto).
    apply H, covered_check, forallb_forall. auto.
  - pose proof (matches_fuel_bound (fun _ => true) (fun _ => false)
                  (S (length a)) a b) as H.
    rewrite count_if_never in H. unfold count_if in H.
    rewrite filter_fixed in H by (apply Forall_forall; auto).
    rewrite Nat.add_0_r in H.
    apply H, covered_check, forallb_forall. auto.
Qed.

(** X7. The number of matched characters is at most the length of either
    sequence, so the ratio lies between 0 and 1. *)
Theorem ratio_range (a b : str) :
  (Difflib.matches a b <= Nat.min (length a) (length b))%nat
  /\ (0 <= Difflib.ratio a b <= 1)%Q.
Proof.
  destruct (matches_le a b) as [Ha Hb]. split; [lia|].
  unfold Difflib.ratio.
  destruct (length a + length b)%nat as [|n] eqn:E.
  - split; discriminate.
  - unfold Qle. cbn [Qnum Qden].
    rewrite <- Pos.of_nat_succ, Zpos_P_of_succ_nat. lia.
Qed.

(** X8. Every string is similar to itself: the ratio is 1 and
    [fuzzy_match] answers [True]. *)
Theorem fuzzy_match_self (s : str) :
  (Difflib.ratio s s == 1)%Q /\ fuzzy_match s s = true.
Proof.
  assert (E : (Difflib.ratio s s == 1)%Q).
  { unfold Difflib.ratio.
    destruct (length s + length s)%nat as [|n] eqn:En; [reflexivity|].
    rewrite matches_self. unfold Qeq. cbn [Qnum Qden].
    rewrite <- Pos.of_nat_succ, Zpos_P_of_succ_nat. lia. }
  split; [exact E|].
  unfold fuzzy_match. apply Qgtb_lt. rewrite E. reflexivity.
Qed.

(** X9. A text can only pass the test against a pattern whose length is
    within a factor of 7/3 of its own. *)
Theorem fuzzy_match_length_window (text pattern : str) :
  pattern <> [] ->
  fuzzy_match text pattern = true ->
  (3 * length pattern < 7 * length text)%nat
  /\ (3 * length text < 7 * length pattern)%nat.
Proof.
  intros Hne H. apply fuzzy_match_iff in H; [|exact Hne].
  destruct (matches_le text pattern). lia.
Qed.

Lemma fuzzy_match_length_window_witness :
  (3 * length (lit "SCAV") < 7 * length (lit "SCustoAV"))%nat
  /\ (3 * length (lit "SCustoAV") < 7 * length (lit "SCAV"))%nat.
Proof.
  apply (fuzzy_match_length_window (lit "SCustoAV") (lit "SCAV"));
    [discriminate | reflexivity].
Defined.

(** X10. A text that shares no character with a non-empty pattern fails the
    test. *)
Theorem fuzzy_match_disjoint (text pattern : str) :
  pattern <> [] ->
  (forall c, In c text -> ~ In c pattern) ->
  fuzzy_match text pattern = false.
Proof.
  intros Hne Hd. destruct (fuzzy_match text pattern) eqn:E; [|reflexivity].
  apply fuzzy_match_iff in E; [|exact Hne]. exfalso.
  pose proof (matches_fuel_bound (fun _ => false)
                (fun c => existsb (N.eqb c) pattern)
                (S (length text)) text pattern) as H.
  fold (Difflib.matches text pattern) in H.
  rewrite count_if_never in H.
  assert (E0 : count_if (fun c => existsb (N.eqb c) pattern) text = O).
  { unfold count_if. clear -Hd. induction text as [|c t IH]; [reflexivity|].
    simpl. destruct (existsb (N.eqb c) pattern) eqn:Ex.
    - apply existsb_exists in Ex as (d & Hin & Ed). apply N.eqb_eq in Ed.
      subst d. exfalso. exact (Hd c (or_introl eq_refl) Hin).
    - apply IH. intros d Hin. apply Hd. right. exact Hin. }
  rewrite E0 in H.
  assert (Hc : covered (fun _ => false)
                 (fun c => existsb (N.eqb c) pattern) pattern).
  { apply Forall_forall. intros c Hin. right. apply existsb_exists.
    exists c. split; [exact Hin | apply N.eqb_refl]. }
  specialize (H Hc). lia.
Qed.

Lemma fuzzy_match_disjoint_witness :
  fuzzy_match (lit "12:34 AK-74") (lit "Customs") = false.
Proof.
  apply fuzzy_match_disjoint; [discriminate|].
  assert (H : forallb (fun c => negb (existsb (N.eqb c) (lit "Customs")))
                (lit "12:34 AK-74") = true) by reflexivity.
  rewrite forallb_forall in H. intros c Hin Hp.
  specialize (H c Hin). apply negb_true_iff in H.
  assert (E : existsb (N.eqb c) (lit "Customs") = true)
    by (apply existsb_exists; exists c; split; [exact Hp | apply N.eqb_refl]).
  congruence.
Defined.

(** ** The lines that pass both tests *)

Section MatchCountBoth.

Variables P R : char -> bool.

(** As [matches_fuel_bound], with the characters that satisfy [P] counted
    in both sequences. *)
Lemma matches_fuel_bound_min (fuel : nat) :
  forall a b,
    covered P R b ->
    (Difflib.matches_fuel fuel a b
     <= Nat.min (count_if P a) (count_if P b) + count_if R a)%nat.
Proof.
  induction fuel as [|fuel IH]; intros a b Hb; simpl; [lia|].
  pose proof (find_longest_match_valid a b) as Hv.
  destruct (Difflib.find_longest_match a b) as [[i j] k].
  destruct Hv as (Hblk & Hi & Hj).
  destruct (k =? 0)%nat; [lia|].
  destruct (Forall_around _ b j k Hb) as (Hl & Hm & Hr).
  pose proof (covered_length P R _ Hm) as Hk.
  rewrite length_firstn, length_skipn in Hk.
  rewrite (count_if_around P b j k), (count_if_around P a i k),
    (count_if_around R a i k).
  rewrite Hblk.
  pose proof (IH (firstn i a) (firstn j b) Hl).
  pose proof (IH (skipn (i + k) a) (skipn (j + k) b) Hr).
  destruct (_ && _); destruct (_ && _); lia.
Qed.

End MatchCountBoth.

Lemma classes_disjoint_C (c : char) :
  (Nat.b2n (Py.isspace c) + Nat.b2n (is_C c) + Nat.b2n (in_SAV c)
   + Nat.b2n (in_ustom c) <= 1)%nat.
Proof.
  pose proof (classes_disjoint c) as H.
  destruct (is_C c) eqn:E; [|simpl; lia].
  unfold is_C in E. apply N.eqb_eq in E. subst c. vm_compute. lia.
Qed.

Lemma classes_count_C (s : str) :
  (count_if Py.isspace s + count_if is_C s + count_if in_SAV s
   + count_if in_ustom s <= length s)%nat.
Proof.
  unfold count_if. induction s as [|c s IH]; simpl; [lia|].
  pose proof (classes_disjoint_C c).
  destruct (Py.isspace c), (is_C c), (in_SAV c), (in_ustom c);
    simpl in *; lia.
Qed.

(** X11. A cleaned line that passes both tests has 8 or 9 characters and
    at most two tokens. *)
Theorem both_match_shape (cleaned : str) :
  both_match cleaned = true ->
  (8 <= length cleaned <= 9)%nat /\ (length (Py.split cleaned) <= 2)%nat.
Proof.
  unfold both_match. intros H. apply andb_true_iff in H as [H1 H2].
  apply fuzzy_match_iff in H1; [|discriminate].
  apply fuzzy_match_iff in H2; [|discriminate].
  change (length (lit "Customs")) with 7%nat in H1.
  change (length (lit "SCAV")) with 4%nat in H2.
  pose proof (matches_fuel_bound_min is_C in_ustom (S (length cleaned))
                cleaned (lit "Customs")
                (covered_check is_C in_ustom (lit "Customs") eq_refl)) as B1.
  pose proof (matches_fuel_bound_min is_C in_SAV (S (length cleaned))
                cleaned (lit "SCAV")
                (covered_check is_C in_SAV (lit "SCAV") eq_refl)) as B2.
  fold (Difflib.matches cleaned (lit "Customs")) in B1.
  fold (Difflib.matches cleaned (lit "SCAV")) in B2.
  change (count_if is_C (lit "Customs")) with 1%nat in B1.
  change (count_if is_C (lit "SCAV")) with 1%nat in B2.
  destruct (matches_le cleaned (lit "SCAV")) as [_ B4].
  change (length (lit "SCAV")) with 4%nat in B4.
  pose proof (classes_count_C cleaned) as Hc.
  pose proof (split_from_length cleaned []) as Hs.
  fold (Py.split cleaned) in Hs. lia.
Qed.

Lemma both_match_shape_witness :
  (8 <= length (lit "SCust oAV") <= 9)%nat
  /\ (length (Py.split (lit "SCust oAV")) <= 2)%nat.
Proof.
  apply (both_match_shape (lit "SCust oAV")). vm_compute. reflexivity.
Defined.

(** ** What [parse_kill_list] prints *)

Lemma debug_lines_flat_map (lines : list str) :
  debug_lines lines = flat_map debug_of_line lines.
Proof. reflexivity. Qed.

(** X12. [parse_kill_list] keeps what was printed before and adds, in the
    order of the lines, one message for each line whose cleaned form passes
    both tests, and nothing else. *)
Theorem parse_kill_list_prints (ocr_text : str) (out : list str) :
  snd (parse_kill_list ocr_text out)
  = out ++ flat_map debug_of_line (Py.splitlines ocr_text).
Proof. rewrite parse_kill_list_run. reflexivity. Qed.

Lemma splitlines_from_line_feed (cur t2 : str) :
  Py.splitlines_from cur (10 :: t2) = rev cur :: Py.splitlines t2.
Proof. destruct t2; reflexivity. Qed.

Lemma debug_lines_cons (line : str) (lines : list str) :
  debug_lines (line :: lines) = debug_of_line line ++ debug_lines lines.
Proof. reflexivity. Qed.

Lemma debug_lines_last (cur : str) :
  debug_lines (Py.splitlines_from cur []) = debug_of_line (rev cur).
Proof.
  destruct cur as [|c cur]; [reflexivity|].
  cbn [Py.splitlines_from]. rewrite debug_lines_cons. apply app_nil_r.
Qed.

(** The messages for a text followed by a line feed and a second text. *)
Lemma debug_lines_line_feed (n : nat) :
  forall t1 t2 cur : str,
    (length t1 <= n)%nat ->
    debug_lines (Py.splitlines_from cur (t1 ++ 10 :: t2))
    = debug_lines (Py.splitlines_from cur t1)
      ++ debug_lines (Py.splitlines t2).
Proof.
  assert (Hend : forall cur t2 : str,
    debug_lines (Py.splitlines_from cur ([] ++ 10 :: t2))
    = debug_lines (Py.splitlines_from cur [])
      ++ debug_lines (Py.splitlines t2)).
  { intros cur t2. cbn [app].
    rewrite splitlines_from_line_feed, debug_lines_cons, debug_lines_last.
    reflexivity. }
  induction n as [|n IH]; intros t1 t2 cur Hlen.
  - destruct t1; [|simpl in Hlen; lia]. apply Hend.
  - destruct t1 as [|c t1]; [apply Hend|].
    simpl in Hlen. cbn [app Py.splitlines_from].
    destruct (Py.is_linebreak c) eqn:Eb; [|apply IH; lia].
    rewrite !debug_lines_cons, <- app_assoc. f_equal.
    destruct t1 as [|d t1].
    + cbn [app]. change (10 =? 10) with true. rewrite andb_true_r.
      destruct (c =? 13); [reflexivity|].
      rewrite splitlines_from_line_feed. reflexivity.
    + cbn [app].
      destruct ((c =? 13) && (d =? 10)).
      * apply (IH t1 t2 []). simpl in Hlen. lia.
      * apply (IH (d :: t1) t2 []). simpl in *. lia.
Qed.

(** X13. For two texts joined by a line feed, [parse_kill_list] prints
    what it prints for the first and then what it prints for the second. *)
Theorem parse_kill_list_prints_joined (t1 t2 : str) (out : list str) :
  snd (parse_kill_list (t1 ++ [10] ++ t2) out)
  = snd (parse_kill_list t2 (snd (parse_kill_list t1 out))).
Proof.
  rewrite !parse_kill_list_run. cbn [snd app].
  pose proof (debug_lines_line_feed (length t1) t1 t2 [] (le_n _)) as E.
  fold (Py.splitlines (t1 ++ 10 :: t2)) (Py.splitlines t1) in E.
  rewrite E, app_assoc. reflexivity.
Qed.

(** ** Frames and the kill log *)

Section FramesFacts.

Variable image : Type.
Variable stdout_encodes : str -> bool.
Variable imread_frame : str -> exn + option image.
Variable ocr_region : image -> exn + str.
Variable log_opens : world -> bool.

Lemma print_line_log (line : str) (w : world) :
  kill_log (snd (print_line stdout_encodes line w)) = kill_log w.
Proof. unfold print_line. destruct (stdout_encodes line); reflexivity. Qed.

Lemma process_kill_list_log_content (frame_file : str) (w : world) :
  log_content
    (kill_log
       (snd (process_kill_list image stdout_encodes imread_frame ocr_region
               log_opens frame_file w)))
  = log_content (kill_log w).
Proof.
  unfold process_kill_list.
  pose proof (print_line_log
                (lit "[DEBUG] Extracting kill rows from " ++ frame_file) w)
    as H1.
  destruct (print_line stdout_encodes
              (lit "[DEBUG] Extracting kill rows from " ++ frame_file) w)
    as [[e|u] [p1 l1]]; simpl in H1; subst l1; [reflexivity|].
  destruct (imread_frame frame_file) as [e|[img|]]; [reflexivity| |].
  - destruct (ocr_region img) as [e|text]; [reflexivity|].
    rewrite parse_kill_list_run, records_of_nil.
    cbn [printed kill_log log_kills]. destruct (log_opens _); reflexivity.
  - pose proof (print_line_log
                  (lit "[ERROR] Failed to load image " ++ frame_file)
                  {| printed := p1; kill_log := kill_log w |}) as H2.
    destruct (print_line stdout_encodes
                (lit "[ERROR] Failed to load image " ++ frame_file)
                {| printed := p1; kill_log := kill_log w |})
      as [[e|u'] [p2 l2]]; simpl in H2; subst l2; reflexivity.
Qed.

(** X14. Whatever the frame holds, and whether the call returns or raises,
    [process_kill_list] leaves the content of the kill log as it was: it
    writes no record. *)
Theorem process_kill_list_log (frame_file : str) (w : world) :
  log_content
    (kill_log
       (snd (process_kill_list image stdout_encodes imread_frame ocr_region
               log_opens frame_file w)))
  = log_content (kill_log w).
Proof. apply process_kill_list_log_content. Qed.

(** X15. After the loop over the frames, whether it ended normally or by
    an exception, the kill log holds the content it held before, whatever
    the frames show. *)
Theorem process_frames_log (frame_list : list str) :
  forall w : world,
    log_content
      (kill_log
         (snd (process_frames image stdout_encodes imread_frame ocr_region
                 log_opens frame_list w)))
    = log_content (kill_log w).
Proof.
  induction frame_list as [|frame rest IH]; intros w; simpl; [reflexivity|].
  pose proof (process_kill_list_log_content frame w) as H.
  destruct (process_kill_list image stdout_encodes imread_frame ocr_region
              log_opens frame w) as [[e|r] w'].
  - exact H.
  - rewrite IH. exact H.
Qed.

End FramesFacts.
